(** * gcp_nested_groups: the Cloud Run function of [src/main.py]

    A shallow embedding of the event handler [index] and of the functions
    it calls ([gather_okta_ip_ranges], [is_okta_ip], [get_credentials],
    [add_subgroup]), followed by the properties of the decision pipeline.

    Conventions of the embedding.
    - Python values that come out of a JSON document are terms of [json];
      a dict is an association list in insertion order.
    - An exception is a term of [exn]; a computation that may raise and
      that calls the outside world is a term of [M A]: the trace of the
      events it produced, in order, and either the exception that
      escaped or the value returned.
    - Everything that is not code of the repository (the ipaddress
      parser, base64/JSON decoding, the HTTP client, the credential
      provider and the directory API) is a field of the record [World];
      the handler is a function of the configuration, the world and the
      event. *)

From Stdlib Require Import List String Ascii ZArith Bool Lia.
Import ListNotations.
Local Open Scope string_scope.
Local Open Scope Z_scope.
Local Open Scope list_scope.
Local Set Warnings "-register-all".

(** ** Python values *)

(** A value decoded from JSON.  A float carries the one thing the code
    reads of it, whether it is nonzero (its truth value); a dict is the
    list of its items in insertion order. *)
Inductive json : Type :=
| JNull
| JBool (b : bool)
| JInt (n : Z)
| JFloat (nonzero : bool)
| JStr (s : string)
| JArr (items : list json)
| JObj (fields : list (string * json)).

(** The exceptions the code can meet.  [RequestException] stands for
    the whole class [requests.exceptions.RequestException]; every
    constructor is a subclass of Python's [Exception]. *)
Inductive exn : Type :=
| KeyError (key : string)
| IndexError
| TypeError
| AttributeError
| ValueError
| RequestException (msg : string)
| OtherException (name : string).

Definition is_RequestException (e : exn) : bool :=
  match e with RequestException _ => true | _ => false end.

(** ** Events and the computation monad *)

(** The messages handed to [logging.info], one constructor per call
    site; the arguments are the values formatted into the message. *)
Inductive log_message : Type :=
| Log_fetch_error (e : exn)                       (* line 37 *)
| Log_found_okta_ip (requesting_ip range_str : json) (* line 46 *)
| Log_non_okta_ip (requesting_ip : json)          (* line 48 *)
| Log_invalid_ip (requesting_ip : json)           (* line 51 *)
| Log_not_okta_ignoring (requesting_ip membership_id : json) (* line 72 *)
| Log_no_requesting_ip                            (* line 75 *)
| Log_processing_error (e : exn)                  (* line 81 *)
| Log_added (member role : json) (parent_id : string) (* line 124 *)
| Log_exception (e : exn).                        (* line 126 *)

(** What an invocation does to the outside: the calls it makes, the
    messages it logs, and each entry into the propagator. *)
Inductive event : Type :=
| Ev_log (m : log_message)
| Ev_http_get (url : string)
| Ev_auth_default (scopes : list string)
| Ev_refresh
| Ev_build (service_name api_version : string)
| Ev_lookup (uri_suffix : string)
| Ev_create (parent body : json)
| Ev_call_add_subgroup (membership_id : json).

Definition result (A : Type) : Type := (exn + A)%type.

Definition M (A : Type) : Type := (list event * result A)%type.

Definition ret {A} (a : A) : M A := ([], inr a).

Definition raise {A} (e : exn) : M A := ([], inl e).

Definition bind {A B} (m : M A) (k : A -> M B) : M B :=
  match m with
  | (tr, inl e) => (tr, inl e)
  | (tr, inr a) => let (tr', r) := k a in (tr ++ tr', r)
  end.

Definition emit (ev : event) : M unit := ([ev], inr tt).

Definition logging_info (m : log_message) : M unit := emit (Ev_log m).

Definition lift {A} (r : result A) : M A := ([], r).

(** [try: body except Exception as e: handler e]. *)
Definition try_except {A} (body : M A) (handler : exn -> M A) : M A :=
  match body with
  | (tr, inl e) => let (tr', r) := handler e in (tr ++ tr', r)
  | (tr, inr a) => (tr, inr a)
  end.

(** [try: body except C as e: handler e] for an exception class [C]:
    an exception outside the class goes on to the caller. *)
Definition try_except_class {A} (in_class : exn -> bool)
    (body : M A) (handler : exn -> M A) : M A :=
  match body with
  | (tr, inl e) =>
      if in_class e then let (tr', r) := handler e in (tr ++ tr', r)
      else (tr, inl e)
  | (tr, inr a) => (tr, inr a)
  end.

Declare Scope py_scope.
Delimit Scope py_scope with py.
Notation "x <- c1 ;; c2" := (bind c1 (fun x => c2))
  (at level 61, c1 at next level, right associativity) : py_scope.
Notation "c1 ;;; c2" := (bind c1 (fun _ => c2))
  (at level 61, right associativity) : py_scope.
Local Open Scope py_scope.

Definition trace {A} (m : M A) : list event := fst m.
Definition outcome {A} (m : M A) : result A := snd m.

(** ** Operations on Python values *)

Fixpoint assoc (k : string) (fields : list (string * json)) : option json :=
  match fields with
  | [] => None
  | (k', v) :: rest => if String.eqb k k' then Some v else assoc k rest
  end.

(** [v[k]] for a string key. *)
Definition getitem_str (v : json) (k : string) : result json :=
  match v with
  | JObj fields =>
      match assoc k fields with
      | Some x => inr x
      | None => inl (KeyError k)
      end
  | _ => inl TypeError
  end.

(** [v[0]]: the keys of a decoded JSON object are strings, so the
    integer key is never found in a dict. *)
Definition getitem_0 (v : json) : result json :=
  match v with
  | JArr [] => inl IndexError
  | JArr (x :: _) => inr x
  | JStr EmptyString => inl IndexError
  | JStr (String c _) => inr (JStr (String c EmptyString))
  | JObj _ => inl (KeyError "0")
  | _ => inl TypeError
  end.

(** [v.get(k, default)]: only a dict has the method. *)
Definition dict_get (v : json) (k : string) (default : json) : result json :=
  match v with
  | JObj fields =>
      match assoc k fields with
      | Some x => inr x
      | None => inr default
      end
  | _ => inl AttributeError
  end.

(** [v.values()]. *)
Definition dict_values (v : json) : result (list json) :=
  match v with
  | JObj fields => inr (map snd fields)
  | _ => inl AttributeError
  end.

(** Truth value of a Python object in a condition. *)
Definition truthy (v : json) : bool :=
  match v with
  | JNull => false
  | JBool b => b
  | JInt n => negb (n =? 0)
  | JFloat nonzero => nonzero
  | JStr s => negb (String.eqb s "")
  | JArr items => match items with [] => false | _ => true end
  | JObj fields => match fields with [] => false | _ => true end
  end.

Fixpoint is_substring (needle hay : string) : bool :=
  if String.prefix needle hay then true
  else match hay with
       | EmptyString => false
       | String _ rest => is_substring needle rest
       end.

Definition json_is_str (s : string) (v : json) : bool :=
  match v with JStr s' => String.eqb s s' | _ => false end.

(** [k in v] for a string [k]: key test on a dict, element test on a
    list, substring test on a string, TypeError elsewhere. *)
Definition contains_str (k : string) (v : json) : result bool :=
  match v with
  | JObj fields =>
      inr (match assoc k fields with Some _ => true | None => false end)
  | JArr items => inr (existsb (json_is_str k) items)
  | JStr s => inr (is_substring k s)
  | _ => inl TypeError
  end.

Fixpoint chars (s : string) : list json :=
  match s with
  | EmptyString => []
  | String c rest => JStr (String c EmptyString) :: chars rest
  end.

(** The items [xs.extend(v)] appends: the elements of a list, the
    characters of a string, the keys of a dict; TypeError for an object
    that is not iterable. *)
Definition iter_items (v : json) : result (list json) :=
  match v with
  | JArr items => inr items
  | JStr s => inr (chars s)
  | JObj fields => inr (map (fun kv => JStr (fst kv)) fields)
  | _ => inl TypeError
  end.

(** ** Addresses and networks of the ipaddress module *)

Inductive ip_version : Type := V4 | V6.

Definition ip_version_eqb (a b : ip_version) : bool :=
  match a, b with V4, V4 | V6, V6 => true | _, _ => false end.

Record ip_addr : Type := Build_ip_addr {
  addr_version : ip_version;
  addr_int : Z
}.

Record ip_net : Type := Build_ip_net {
  net_version : ip_version;
  network_address : Z;
  netmask : Z
}.

(** [ip in network]: false across versions, otherwise the address
    masked with the netmask is the network address. *)
Definition net_contains (network : ip_net) (ip : ip_addr) : bool :=
  ip_version_eqb (net_version network) (addr_version ip)
  && (Z.land (addr_int ip) (netmask network) =? network_address network).

(** ** The outside world *)

Record credentials : Type := Build_credentials { token : json }.

(** The libraries and remote services the function calls.  A parser of
    the ipaddress module answers [None] where Python raises ValueError,
    the only exception it raises on a value decoded from JSON. *)
Record World : Type := Build_World {
  (** [json.loads(base64.b64decode(x).decode("utf-8").strip())] *)
  decode_message : json -> result json;
  (** [ipaddress.ip_address] *)
  ip_address : json -> option ip_addr;
  (** [ipaddress.ip_network] *)
  ip_network : json -> option ip_net;
  (** [requests.get(url).json()] *)
  requests_get_json : string -> result json;
  (** [google.auth.default(scopes=scopes)] *)
  auth_default : list string -> result (credentials * json);
  (** [credentials.refresh(request)] *)
  credentials_refresh : credentials -> result unit;
  (** [googleapiclient.discovery.build(...)] *)
  discovery_build : string -> string -> result unit;
  (** [service.groups().lookup()] with the suffix added to its uri,
      then [.execute()] *)
  lookup_execute : string -> result json;
  (** [service.groups().memberships().create(parent, body).execute()] *)
  create_execute : json -> json -> result json
}.

(** The two environment variables read at start (lines 22-23). *)
Record Config : Type := Build_Config {
  PARENT_ID : string;
  OKTA_GROUPS_ONLY : string
}.

Record CloudEvent : Type := Build_CloudEvent { data : json }.

(** ** The program *)

Definition okta_ip_ranges_url : string :=
  "https://s3.amazonaws.com/okta-ip-ranges/ip_ranges.json".

(** The loop of lines 32-34 over [data.values()]. *)
Fixpoint gather_loop (cells : list json) (all_ip_ranges : list json)
  : M (list json) :=
  match cells with
  | [] => ret all_ip_ranges
  | cell_data :: rest =>
      present <- lift (contains_str "ip_ranges" cell_data) ;;
      if (present : bool) then
        v <- lift (getitem_str cell_data "ip_ranges") ;;
        items <- lift (iter_items v) ;;
        gather_loop rest (all_ip_ranges ++ items)
      else gather_loop rest all_ip_ranges
  end.

Definition gather_okta_ip_ranges (w : World) : M (list json) :=
  try_except_class is_RequestException
    (emit (Ev_http_get okta_ip_ranges_url) ;;;
     data <- lift (requests_get_json w okta_ip_ranges_url) ;;
     cells <- lift (dict_values data) ;;
     gather_loop cells [])
    (fun e => logging_info (Log_fetch_error e) ;;; ret []).

Definition is_ValueError (e : exn) : bool :=
  match e with ValueError => true | _ => false end.

Definition or_ValueError {A} (o : option A) : M A :=
  match o with Some a => ret a | None => raise ValueError end.

(** The loop of lines 43-49, with the two statements after it. *)
Fixpoint is_okta_ip_loop (w : World) (requesting_ip : json) (ip : ip_addr)
    (okta_ip_ranges : list json) : M json :=
  match okta_ip_ranges with
  | [] =>
      logging_info (Log_non_okta_ip requesting_ip) ;;;
      ret (JBool false)
  | range_str :: rest =>
      network <- or_ValueError (ip_network w range_str) ;;
      if net_contains network ip then
        logging_info (Log_found_okta_ip requesting_ip range_str) ;;;
        ret (JBool true)
      else is_okta_ip_loop w requesting_ip ip rest
  end.

(** The value returned is [True], [False] or, when the handler of
    ValueError runs and falls off the end of the function, [None]. *)
Definition is_okta_ip (w : World) (requesting_ip : json)
    (okta_ip_ranges : list json) : M json :=
  try_except_class is_ValueError
    (ip <- or_ValueError (ip_address w requesting_ip) ;;
     is_okta_ip_loop w requesting_ip ip okta_ip_ranges)
    (fun _ => logging_info (Log_invalid_ip requesting_ip) ;;; ret JNull).

Definition get_credentials (w : World) : M (credentials * json) :=
  let scopes := ["https://www.googleapis.com/auth/cloud-identity.groups"] in
  emit (Ev_auth_default scopes) ;;;
  cp <- lift (auth_default w scopes) ;;
  emit Ev_refresh ;;;
  lift (credentials_refresh w (fst cp)) ;;;
  ret cp.

Definition membership_body (membership_id : json) : json :=
  JObj [("preferredMemberKey", JObj [("id", membership_id)]);
        ("roles", JObj [("name", JStr "MEMBER")])].

(** Lines 120-126: the create call, the reading of its response and
    the handler around them. *)
Definition create_membership (cfg : Config) (w : World)
    (groupName membership : json) : M unit :=
  try_except
    (emit (Ev_create groupName membership) ;;;
     response <- lift (create_execute w groupName membership) ;;
     r1 <- lift (getitem_str response "response") ;;
     key <- lift (getitem_str r1 "preferredMemberKey") ;;
     preferredMemberKey <- lift (getitem_str key "id") ;;
     r2 <- lift (getitem_str response "response") ;;
     roles <- lift (getitem_str r2 "roles") ;;
     role0 <- lift (getitem_0 roles) ;;
     role <- lift (getitem_str role0 "name") ;;
     logging_info (Log_added preferredMemberKey role (PARENT_ID cfg)))
    (fun e => logging_info (Log_exception e)).

(** Lines 91-126.  The first event marks the entry into the function;
    the headers dict of lines 115-119 is built and never used. *)
Definition add_subgroup (cfg : Config) (w : World) (membership_id : json)
  : M unit :=
  emit (Ev_call_add_subgroup membership_id) ;;;
  cp <- get_credentials w ;;
  let service_name := "cloudidentity" in
  let api_version := "v1" in
  emit (Ev_build service_name api_version) ;;;
  lift (discovery_build w service_name api_version) ;;;
  let param := ("&groupKey.id=" ++ PARENT_ID cfg)%string in
  emit (Ev_lookup param) ;;;
  lookupGroupNameResponse <- lift (lookup_execute w param) ;;
  groupName <- lift (dict_get lookupGroupNameResponse "name" JNull) ;;
  let membership := membership_body membership_id in
  create_membership cfg w groupName membership.

(** Lines 57-60: the caller address and the membership identifier. *)
Definition decode_event (w : World) (cloud_event : CloudEvent)
  : M (json * json) :=
  msg <- lift (getitem_str (data cloud_event) "message") ;;
  payload <- lift (getitem_str msg "data") ;;
  message <- lift (decode_message w payload) ;;
  pp <- lift (getitem_str message "protoPayload") ;;
  requestMetadata <- lift (getitem_str pp "requestMetadata") ;;
  requesting_ip <- lift (dict_get requestMetadata "callerIp" (JStr "")) ;;
  pp' <- lift (getitem_str message "protoPayload") ;;
  metadata <- lift (getitem_str pp' "metadata") ;;
  events <- lift (getitem_str metadata "event") ;;
  event0 <- lift (getitem_0 events) ;;
  parameters <- lift (getitem_str event0 "parameter") ;;
  parameter0 <- lift (getitem_0 parameters) ;;
  membership_id <- lift (getitem_str parameter0 "value") ;;
  ret (requesting_ip, membership_id).

Definition restrict_to_trusted_ip (cfg : Config) : bool :=
  String.eqb (OKTA_GROUPS_ONLY cfg) "True".

(** Lines 68-73: what the handler does with the classifier's answer. *)
Definition on_classified (cfg : Config) (w : World)
    (requesting_ip membership_id verdict : json) : M (string * Z) :=
  if truthy verdict then
    add_subgroup cfg w membership_id ;;;
    ret ("Group Event Processed Successfully", 200)
  else
    logging_info (Log_not_okta_ignoring requesting_ip membership_id) ;;;
    ret ("Not an Okta IP", 200).

(** Lines 66-79: the enforcement mode, once the ranges are there. *)
Definition enforce (cfg : Config) (w : World)
    (requesting_ip membership_id : json) (okta_ip_ranges : list json)
  : M (string * Z) :=
  if restrict_to_trusted_ip cfg then
    if truthy requesting_ip then
      verdict <- is_okta_ip w requesting_ip okta_ip_ranges ;;
      on_classified cfg w requesting_ip membership_id verdict
    else
      logging_info Log_no_requesting_ip ;;;
      ret ("No Requesting IP Found", 200)
  else
    add_subgroup cfg w membership_id ;;;
    ret ("Group Event Processed Successfully", 200).

(** Lines 62-79. *)
Definition policy (cfg : Config) (w : World)
    (requesting_ip membership_id : json) : M (string * Z) :=
  okta_ip_ranges <- gather_okta_ip_ranges w ;;
  match okta_ip_ranges with
  | [] => ret ("Could not retrieve Okta IP ranges", 500)
  | _ :: _ => enforce cfg w requesting_ip membership_id okta_ip_ranges
  end.

Definition index (cfg : Config) (w : World) (cloud_event : CloudEvent)
  : M (string * Z) :=
  try_except
    (decoded <- decode_event w cloud_event ;;
     policy cfg w (fst decoded) (snd decoded))
    (fun e =>
       logging_info (Log_processing_error e) ;;;
       ret ("Error processing cloud event", 500)).

(** ** A concrete world for the examples

    [IPv4Text] is the textual IPv4 fragment of the ipaddress module:
    dotted-quad addresses and [a.b.c.d/len] networks with the strict
    check on host bits.  It serves the examples below, which feed it
    strings of that fragment only; the theorems hold for every
    [World]. *)
Module IPv4Text.

Definition digit_value (c : ascii) : option Z :=
  let n := Z.of_nat (nat_of_ascii c) in
  if (48 <=? n) && (n <=? 57) then Some (n - 48) else None.

Fixpoint decimal_from (acc : Z) (s : string) : option Z :=
  match s with
  | EmptyString => Some acc
  | String c rest =>
      match digit_value c with
      | Some d => decimal_from (10 * acc + d) rest
      | None => None
      end
  end.

Definition decimal (s : string) : option Z :=
  match s with
  | EmptyString => None
  | _ => decimal_from 0 s
  end.

Fixpoint split_from (sep : ascii) (cur : string) (s : string) : list string :=
  match s with
  | EmptyString => [cur]
  | String c rest =>
      if Ascii.eqb c sep then cur :: split_from sep "" rest
      else split_from sep (cur ++ String c "")%string rest
  end.

Definition split (sep : ascii) (s : string) : list string :=
  split_from sep "" s.

Definition parse_octet (s : string) : option Z :=
  match decimal s with
  | Some n =>
      if (3 <? Z.of_nat (String.length s)) then None
      else if negb (String.eqb s "0") && String.prefix "0" s then None
      else if 255 <? n then None
      else Some n
  | None => None
  end.

Definition parse_address (s : string) : option Z :=
  match map parse_octet (split "." s) with
  | [Some a; Some b; Some c; Some d] =>
      Some (((a * 256 + b) * 256 + c) * 256 + d)
  | _ => None
  end.

Definition mask_of_prefix (len : Z) : Z :=
  Z.lxor (Z.ones 32) (Z.ones (32 - len)).

Definition parse_network (s : string) : option ip_net :=
  match split "/" s with
  | [a] =>
      match parse_address a with
      | Some n => Some (Build_ip_net V4 n (Z.ones 32))
      | None => None
      end
  | [a; p] =>
      match parse_address a, decimal p with
      | Some n, Some len =>
          if 32 <? len then None
          else
            let mask := mask_of_prefix len in
            if Z.land n mask =? n then Some (Build_ip_net V4 n mask)
            else None
      | _, _ => None
      end
  | _ => None
  end.

Definition ip_address (v : json) : option ip_addr :=
  match v with
  | JStr s =>
      match parse_address s with
      | Some n => Some (Build_ip_addr V4 n)
      | None => None
      end
  | _ => None
  end.

Definition ip_network (v : json) : option ip_net :=
  match v with
  | JStr s => parse_network s
  | _ => None
  end.

End IPv4Text.

(** The document of the range endpoint: two cells with a list, one
    without. *)
Definition okta_document : json :=
  JObj [("us_cell_1", JObj [("ip_ranges",
            JArr [JStr "146.112.162.0/24"; JStr "3.14.0.0/16"])]);
        ("preview", JObj [("note", JStr "no ranges here")]);
        ("emea_cell_1", JObj [("ip_ranges", JArr [JStr "10.20.0.0/16"])])].

(** An audit-log entry; [caller] is absent from it when [None]. *)
Definition audit_entry (caller : option json) (member : string) : json :=
  JObj [("protoPayload",
         JObj [("requestMetadata",
                JObj (match caller with
                      | Some ip => [("callerIp", ip)]
                      | None => []
                      end));
               ("metadata",
                JObj [("event",
                       JArr [JObj [("parameter",
                              JArr [JObj [("name", JStr "USER_EMAIL");
                                          ("value", JStr member)]])]])])])].

(** An event as the dispatcher delivers it; what its payload decodes to
    is the world's [decode_message]. *)
Definition sample_event : CloudEvent :=
  Build_CloudEvent
    (JObj [("message", JObj [("data", JStr "eyJwcm90b1BheWxvYWQiOiAuLi59")])]).

Definition created_response (body : json) : json :=
  JObj [("response",
         JObj [("preferredMemberKey",
                match getitem_str body "preferredMemberKey" with
                | inr k => k
                | inl _ => JNull
                end);
               ("roles", JArr [JObj [("name", JStr "MEMBER")]])])].

(** A world in which every collaborator answers: the payload of the
    event decodes to [message] and the range endpoint serves
    [document]. *)
Definition healthy_world (message document : json) : World :=
  {| decode_message := fun _ => inr message;
     ip_address := IPv4Text.ip_address;
     ip_network := IPv4Text.ip_network;
     requests_get_json := fun _ => inr document;
     auth_default := fun _ =>
       inr (Build_credentials (JStr "ya29.token"), JStr "my-project");
     credentials_refresh := fun _ => inr tt;
     discovery_build := fun _ _ => inr tt;
     lookup_execute := fun _ => inr (JObj [("name", JStr "groups/01abc")]);
     create_execute := fun _ body => inr (created_response body) |}.

Definition with_fetch (w : World) (r : result json) : World :=
  {| decode_message := decode_message w;
     ip_address := ip_address w;
     ip_network := ip_network w;
     requests_get_json := fun _ => r;
     auth_default := auth_default w;
     credentials_refresh := credentials_refresh w;
     discovery_build := discovery_build w;
     lookup_execute := lookup_execute w;
     create_execute := create_execute w |}.

Definition with_auth_default (w : World)
    (r : result (credentials * json)) : World :=
  {| decode_message := decode_message w;
     ip_address := ip_address w;
     ip_network := ip_network w;
     requests_get_json := requests_get_json w;
     auth_default := fun _ => r;
     credentials_refresh := credentials_refresh w;
     discovery_build := discovery_build w;
     lookup_execute := lookup_execute w;
     create_execute := create_execute w |}.

Definition with_lookup (w : World) (r : result json) : World :=
  {| decode_message := decode_message w;
     ip_address := ip_address w;
     ip_network := ip_network w;
     requests_get_json := requests_get_json w;
     auth_default := auth_default w;
     credentials_refresh := credentials_refresh w;
     discovery_build := discovery_build w;
     lookup_execute := fun _ => r;
     create_execute := create_execute w |}.

Definition with_create (w : World) (r : result json) : World :=
  {| decode_message := decode_message w;
     ip_address := ip_address w;
     ip_network := ip_network w;
     requests_get_json := requests_get_json w;
     auth_default := auth_default w;
     credentials_refresh := credentials_refresh w;
     discovery_build := discovery_build w;
     lookup_execute := lookup_execute w;
     create_execute := fun _ _ => r |}.

Definition restricted : Config :=
  {| PARENT_ID := "parent-group-id"; OKTA_GROUPS_ONLY := "True" |}.

Definition unrestricted : Config :=
  {| PARENT_ID := "parent-group-id"; OKTA_GROUPS_ONLY := "False" |}.

(** ** Observations on a run *)

(** The identifiers the propagator was entered with, in order. *)
Definition propagation_attempts (tr : list event) : list json :=
  flat_map (fun ev => match ev with
                      | Ev_call_add_subgroup id => [id]
                      | _ => []
                      end) tr.

(** The create-membership calls issued: parent and body. *)
Definition create_calls (tr : list event) : list (json * json) :=
  flat_map (fun ev => match ev with
                      | Ev_create parent body => [(parent, body)]
                      | _ => []
                      end) tr.

(** The events of the propagator: its entry and every call it makes to
    the credential provider and to the directory API. *)
Definition is_propagation_event (ev : event) : bool :=
  match ev with
  | Ev_call_add_subgroup _ | Ev_auth_default _ | Ev_refresh
  | Ev_build _ _ | Ev_lookup _ | Ev_create _ _ => true
  | Ev_log _ | Ev_http_get _ => false
  end.

Definition propagation_events (tr : list event) : list event :=
  filter is_propagation_event tr.

Definition status (m : M (string * Z)) : option Z :=
  match outcome m with
  | inr (_, st) => Some st
  | inl _ => None
  end.

(** Lines 92-106 of the propagator, as a function of the world: the
    resolved group name, or the exception that stops the propagator
    before its [try] block. *)
Definition resolve_parent (cfg : Config) (w : World) : result json :=
  match auth_default w
          ["https://www.googleapis.com/auth/cloud-identity.groups"] with
  | inl e => inl e
  | inr cp =>
      match credentials_refresh w (fst cp) with
      | inl e => inl e
      | inr _ =>
          match discovery_build w "cloudidentity" "v1" with
          | inl e => inl e
          | inr _ =>
              match lookup_execute w
                      ("&groupKey.id=" ++ PARENT_ID cfg)%string with
              | inl e => inl e
              | inr resp => dict_get resp "name" JNull
              end
          end
      end
  end.

(** The Approved state of the policy, once the ranges are fetched. *)
Definition approved (cfg : Config) (w : World) (requesting_ip : json)
    (okta_ip_ranges : list json) : bool :=
  if restrict_to_trusted_ip cfg then
    truthy requesting_ip &&
    match outcome (is_okta_ip w requesting_ip okta_ip_ranges) with
    | inr verdict => truthy verdict
    | inl _ => false
    end
  else true.

(** ** The flattening, in the words of the specification *)

Definition has_ip_ranges (cell : json) : bool :=
  match cell with
  | JObj fields =>
      match assoc "ip_ranges" fields with Some _ => true | None => false end
  | _ => false
  end.

Definition ip_ranges_list (cell : json) : list json :=
  match cell with
  | JObj fields =>
      match assoc "ip_ranges" fields with
      | Some (JArr ranges) => ranges
      | _ => []
      end
  | _ => []
  end.

(** The concatenation, in source order, of the [ip_ranges] lists of the
    top-level entries that have the field. *)
Definition flattened_ranges (entries : list (string * json)) : list json :=
  List.concat (map ip_ranges_list (filter has_ip_ranges (map snd entries))).

(** A top-level value that is an object whose [ip_ranges] field, when
    present, is a list. *)
Definition is_range_cell (cell : json) : bool :=
  match cell with
  | JObj fields =>
      match assoc "ip_ranges" fields with
      | Some (JArr _) | None => true
      | Some _ => false
      end
  | _ => false
  end.

(** ** Vocabulary of the statements *)

(** A well-formed network that does not contain the address, one that
    contains it, and an entry that is not a network. *)
Definition misses (w : World) (a : ip_addr) (range_str : json) : Prop :=
  exists n, ip_network w range_str = Some n /\ net_contains n a = false.

Definition hits (w : World) (a : ip_addr) (range_str : json) : Prop :=
  exists n, ip_network w range_str = Some n /\ net_contains n a = true.

Definition malformed (w : World) (range_str : json) : Prop :=
  ip_network w range_str = None.

(** The classifier's own events are log messages. *)
Definition is_log (ev : event) : bool :=
  match ev with Ev_log _ => true | _ => false end.

Definition processed : string * Z :=
  ("Group Event Processed Successfully", 200).

(** The handler's [except] clause: what it logs and returns. *)
Definition on_exception (e : exn) : M (string * Z) :=
  logging_info (Log_processing_error e) ;;;
  ret ("Error processing cloud event", 500).

(** An address the list does not vouch for: it does not parse, or it
    parses and no well-formed network of the list contains it. *)
Definition untrusted (w : World) (requesting_ip : json)
    (ranges : list json) : Prop :=
  ip_address w requesting_ip = None
  \/ exists a, ip_address w requesting_ip = Some a
               /\ forall r n, In r ranges -> ip_network w r = Some n ->
                              net_contains n a = false.

(** What the handler returns once the propagator has been entered: the
    success tuple when lines 92-106 raise nothing, the tuple of the
    [except] clause otherwise. *)
Definition after_propagation (cfg : Config) (w : World) : string * Z :=
  match resolve_parent cfg w with
  | inr _ => processed
  | inl _ => ("Error processing cloud event", 500)
  end.

Definition expected_create (cfg : Config) (w : World) (membership_id : json)
  : list (json * json) :=
  match resolve_parent cfg w with
  | inr groupName => [(groupName, membership_body membership_id)]
  | inl _ => []
  end.

(** Whether an invocation reports failure: the envelope does not
    decode, the fetcher raises or yields nothing, or, in the Approved
    state, lines 92-106 of the propagator raise. *)
Definition reports_failure (cfg : Config) (w : World)
    (cloud_event : CloudEvent) : bool :=
  match outcome (decode_event w cloud_event) with
  | inl _ => true
  | inr (requesting_ip, _) =>
      match outcome (gather_okta_ip_ranges w) with
      | inl _ => true
      | inr [] => true
      | inr (r :: rest) =>
          approved cfg w requesting_ip (r :: rest)
          && match resolve_parent cfg w with
             | inl _ => true
             | inr _ => false
             end
      end
  end.

(** ** The configuration read at start *)

(** [os.environ], and [os.environ.get(key, default)]. *)
Definition environ : Type := string -> option string.

Definition environ_get (env : environ) (key default : string) : string :=
  match env key with
  | Some v => v
  | None => default
  end.

(** Lines 22-23. *)
Definition load_config (env : environ) : Config :=
  {| PARENT_ID :=
       environ_get env "PARENT_GROUP"
         "Parent group not set in Cloud Run Function environment variable";
     OKTA_GROUPS_ONLY :=
       environ_get env "OKTA_GROUPS_ONLY"
         "Okta Groups Only boolean not set in Cloud Run Function environment variable" |}.

(** ** Further vocabulary *)

(** The URLs fetched, in order. *)
Definition http_gets (tr : list event) : list string :=
  flat_map (fun ev => match ev with
                      | Ev_http_get url => [url]
                      | _ => []
                      end) tr.

(** The calls that reach the directory API or build its client. *)
Definition is_directory_call (ev : event) : bool :=
  match ev with
  | Ev_build _ _ | Ev_lookup _ | Ev_create _ _ => true
  | _ => false
  end.

Definition directory_calls (tr : list event) : list event :=
  filter is_directory_call tr.

(** The top-level values the loop of the fetcher gets past: a range
    cell, or a list or string that does not mention [ip_ranges]. *)
Definition is_tolerated_cell (cell : json) : bool :=
  match cell with
  | JObj _ => is_range_cell cell
  | JArr items => negb (existsb (json_is_str "ip_ranges") items)
  | JStr s => negb (is_substring "ip_ranges" s)
  | _ => false
  end.

Definition is_scalar (v : json) : bool :=
  match v with
  | JNull | JBool _ | JInt _ | JFloat _ => true
  | _ => false
  end.

(** The top-level values on which the loop raises TypeError: a null,
    boolean or number; a list or string that mentions [ip_ranges]; an
    object whose [ip_ranges] field is a null, boolean or number. *)
Definition is_offending_cell (cell : json) : bool :=
  match cell with
  | JObj fields =>
      match assoc "ip_ranges" fields with
      | Some v => is_scalar v
      | None => false
      end
  | JArr items => existsb (json_is_str "ip_ranges") items
  | JStr s => is_substring "ip_ranges" s
  | _ => true
  end.

Definition flattened_cells (cells : list json) : list json :=
  List.concat (map ip_ranges_list (filter has_ip_ranges cells)).

Definition cloud_identity_scopes : list string :=
  ["https://www.googleapis.com/auth/cloud-identity.groups"].

(** What an event of a run may be, for a configuration, a world and
    the membership identifier decoded from the event: the fixed URL,
    scope, service and version, the configured parent group, the
    resolved group name and the body built from the identifier. *)
Definition expected_event (cfg : Config) (w : World) (membership_id : json)
    (ev : event) : Prop :=
  match ev with
  | Ev_log _ => True
  | Ev_http_get url => url = okta_ip_ranges_url
  | Ev_auth_default scopes => scopes = cloud_identity_scopes
  | Ev_refresh => True
  | Ev_build service_name api_version =>
      service_name = "cloudidentity" /\ api_version = "v1"
  | Ev_lookup uri_suffix =>
      uri_suffix = ("&groupKey.id=" ++ PARENT_ID cfg)%string
  | Ev_create parent body =>
      resolve_parent cfg w = inr parent
      /\ body = membership_body membership_id
  | Ev_call_add_subgroup id => id = membership_id
  end.

(** The five tuples the handler can return. *)
Definition replies : list (string * Z) :=
  [("Could not retrieve Okta IP ranges", 500);
   ("Group Event Processed Successfully", 200);
   ("Not an Okta IP", 200);
   ("No Requesting IP Found", 200);
   ("Error processing cloud event", 500)].




(** * Properties *)

(** Case analysis on the next call whose result decides how a
    computation goes on. *)
Ltac case_result :=
  match goal with
  | |- context [match ?r with inl _ => _ | inr _ => _ end] =>
      destruct r; cbn
  end.

Arguments create_membership : simpl never.

(** ** The monad *)

Lemma M_eta {A} (m : M A) : m = (trace m, outcome m).
Proof. destruct m; reflexivity. Qed.

Lemma bind_raises {A B} (m : M A) (k : A -> M B) e :
  outcome m = inl e -> bind m k = (trace m, inl e).
Proof. destruct m as [tr r]; simpl; intros ->; reflexivity. Qed.

Lemma bind_returns {A B} (m : M A) (k : A -> M B) a :
  outcome m = inr a ->
  bind m k = (trace m ++ trace (k a), outcome (k a)).
Proof.
  destruct m as [tr r]; simpl; intros ->.
  destruct (k a); reflexivity.
Qed.

Lemma propagation_events_app tr1 tr2 :
  propagation_events (tr1 ++ tr2)
  = propagation_events tr1 ++ propagation_events tr2.
Proof. apply filter_app. Qed.

Lemma propagation_attempts_app tr1 tr2 :
  propagation_attempts (tr1 ++ tr2)
  = propagation_attempts tr1 ++ propagation_attempts tr2.
Proof. apply flat_map_app. Qed.

Lemma create_calls_app tr1 tr2 :
  create_calls (tr1 ++ tr2) = create_calls tr1 ++ create_calls tr2.
Proof. apply flat_map_app. Qed.

(** ** The range fetcher *)

Lemma gather_loop_range_cells cells :
  forallb is_range_cell cells = true ->
  forall acc,
    gather_loop cells acc
    = ([], inr (acc ++ List.concat (map ip_ranges_list
                                 (filter has_ip_ranges cells)))).
Proof.
  induction cells as [|cell rest IH]; intros Hwf acc.
  - simpl. rewrite app_nil_r. reflexivity.
  - simpl in Hwf. apply andb_prop in Hwf as [Hcell Hrest].
    destruct cell as [| | | | |?|fields]; try discriminate Hcell.
    cbn [gather_loop contains_str getitem_str has_ip_ranges filter
         is_range_cell] in *.
    destruct (assoc "ip_ranges" fields) as [v|] eqn:Hf.
    + destruct v; try discriminate Hcell.
      cbn. rewrite (IH Hrest). cbn. rewrite Hf, app_assoc. reflexivity.
    + cbn. rewrite (IH Hrest). reflexivity.
Qed.

Lemma gather_loop_silent cells :
  forall acc, trace (gather_loop cells acc) = [].
Proof.
  induction cells as [|cell rest IH]; intros acc; [reflexivity|].
  cbn [gather_loop].
  destruct (contains_str "ip_ranges" cell) as [e|[|]]; cbn.
  - reflexivity.
  - destruct (getitem_str cell "ip_ranges") as [e|v]; cbn; [reflexivity|].
    destruct (iter_items v) as [e|items]; cbn; [reflexivity|].
    rewrite (M_eta (gather_loop rest (acc ++ items))), IH. reflexivity.
  - rewrite (M_eta (gather_loop rest acc)), IH. reflexivity.
Qed.

(** The fetcher makes one HTTP request and, at most, logs one message
    after it: it never touches the propagator. *)
Lemma gather_trace w :
  trace (gather_okta_ip_ranges w) = [Ev_http_get okta_ip_ranges_url]
  \/ exists e, trace (gather_okta_ip_ranges w)
              = [Ev_http_get okta_ip_ranges_url; Ev_log (Log_fetch_error e)].
Proof.
  unfold gather_okta_ip_ranges.
  destruct (requests_get_json w okta_ip_ranges_url) as [e|doc]; cbn.
  - destruct (is_RequestException e); cbn; eauto.
  - destruct (dict_values doc) as [e|cells]; cbn.
    + destruct (is_RequestException e); cbn; eauto.
    + pose proof (gather_loop_silent cells []) as Hs.
      destruct (gather_loop cells []) as [tr [e|l]]; cbn in *; subst tr.
      * destruct (is_RequestException e); cbn; eauto.
      * eauto.
Qed.

Lemma gather_no_propagation w :
  propagation_events (trace (gather_okta_ip_ranges w)) = [].
Proof.
  destruct (gather_trace w) as [-> | [e ->]]; reflexivity.
Qed.

Lemma gather_no_attempt w :
  propagation_attempts (trace (gather_okta_ip_ranges w)) = [].
Proof.
  destruct (gather_trace w) as [-> | [e ->]]; reflexivity.
Qed.

Lemma gather_no_create w :
  create_calls (trace (gather_okta_ip_ranges w)) = [].
Proof.
  destruct (gather_trace w) as [-> | [e ->]]; reflexivity.
Qed.

(** C9.  When the fetched document is an object whose top-level values
    are objects (each [ip_ranges] field being a list), the fetcher
    returns the concatenation, in source order, of the [ip_ranges]
    lists of exactly the entries that have the field. *)
Theorem gather_flattens_in_order (w : World) (entries : list (string * json)) :
  requests_get_json w okta_ip_ranges_url = inr (JObj entries) ->
  forallb is_range_cell (map snd entries) = true ->
  gather_okta_ip_ranges w
  = ([Ev_http_get okta_ip_ranges_url], inr (flattened_ranges entries)).
Proof.
  intros Hget Hcells. unfold gather_okta_ip_ranges, flattened_ranges.
  rewrite Hget. cbn.
  rewrite (gather_loop_range_cells _ Hcells []). reflexivity.
Qed.

Lemma gather_flattens_in_order_witness :
  gather_okta_ip_ranges (healthy_world JNull okta_document)
  = ([Ev_http_get okta_ip_ranges_url],
     inr [JStr "146.112.162.0/24"; JStr "3.14.0.0/16"; JStr "10.20.0.0/16"]).
Proof.
  apply (gather_flattens_in_order (healthy_world JNull okta_document)
           [("us_cell_1", JObj [("ip_ranges",
                JArr [JStr "146.112.162.0/24"; JStr "3.14.0.0/16"])]);
            ("preview", JObj [("note", JStr "no ranges here")]);
            ("emea_cell_1", JObj [("ip_ranges", JArr [JStr "10.20.0.0/16"])])]);
    reflexivity.
Defined.

(** ** The classifier *)

Lemma loop_outcomes w rip a ranges :
  outcome (is_okta_ip_loop w rip a ranges) = inr (JBool true)
  \/ outcome (is_okta_ip_loop w rip a ranges) = inr (JBool false)
  \/ outcome (is_okta_ip_loop w rip a ranges) = inl ValueError.
Proof.
  induction ranges as [|r rest IH]; cbn; auto.
  destruct (ip_network w r) as [n|]; cbn; auto.
  destruct (net_contains n a); cbn; auto.
  rewrite (M_eta (is_okta_ip_loop w rip a rest)).
  destruct IH as [-> | [-> | ->]]; auto.
Qed.

Lemma loop_step_miss w rip a r rest n :
  ip_network w r = Some n -> net_contains n a = false ->
  is_okta_ip_loop w rip a (r :: rest) = is_okta_ip_loop w rip a rest.
Proof.
  intros Hn Hc. cbn. rewrite Hn. cbn. rewrite Hc.
  destruct (is_okta_ip_loop w rip a rest); reflexivity.
Qed.

Lemma loop_true_iff w rip a ranges :
  outcome (is_okta_ip_loop w rip a ranges) = inr (JBool true)
  <-> exists pre r post,
        ranges = pre ++ r :: post /\ Forall (misses w a) pre /\ hits w a r.
Proof.
  induction ranges as [|r rest IH].
  - cbn. split; [discriminate|].
    intros (pre & r & post & E & _). destruct pre; discriminate E.
  - split.
    + intros H. destruct (ip_network w r) as [n|] eqn:Hn.
      * destruct (net_contains n a) eqn:Hc.
        -- exists [], r, rest. repeat split; [constructor|].
           exists n; auto.
        -- rewrite (loop_step_miss _ _ _ _ _ _ Hn Hc) in H.
           apply IH in H as (pre & r' & post & -> & Hpre & Hhit).
           exists (r :: pre), r', post. repeat split; auto.
           constructor; auto. exists n; auto.
      * cbn in H. rewrite Hn in H. discriminate H.
    + intros (pre & r' & post & E & Hpre & Hhit).
      destruct pre as [|p pre]; cbn in E; injection E as <- ->.
      * destruct Hhit as (n & Hn & Hc). cbn. rewrite Hn. cbn.
        rewrite Hc. reflexivity.
      * inversion Hpre as [|? ? (n & Hn & Hc) Hpre']; subst.
        rewrite (loop_step_miss _ _ _ _ _ _ Hn Hc).
        apply IH. exists pre, r', post. auto.
Qed.

Lemma loop_false_iff w rip a ranges :
  outcome (is_okta_ip_loop w rip a ranges) = inr (JBool false)
  <-> Forall (misses w a) ranges.
Proof.
  induction ranges as [|r rest IH].
  - cbn. split; auto.
  - split.
    + intros H. destruct (ip_network w r) as [n|] eqn:Hn.
      * destruct (net_contains n a) eqn:Hc.
        -- cbn in H. rewrite Hn in H. cbn in H. rewrite Hc in H.
           discriminate H.
        -- rewrite (loop_step_miss _ _ _ _ _ _ Hn Hc) in H.
           constructor; [exists n; auto | apply IH; exact H].
      * cbn in H. rewrite Hn in H. discriminate H.
    + intros H. inversion H as [|? ? (n & Hn & Hc) Hrest]; subst.
      rewrite (loop_step_miss _ _ _ _ _ _ Hn Hc). apply IH. exact Hrest.
Qed.

Lemma loop_raises_iff w rip a ranges :
  outcome (is_okta_ip_loop w rip a ranges) = inl ValueError
  <-> exists pre r post,
        ranges = pre ++ r :: post /\ Forall (misses w a) pre
        /\ malformed w r.
Proof.
  induction ranges as [|r rest IH].
  - cbn. split; [discriminate|].
    intros (pre & r & post & E & _). destruct pre; discriminate E.
  - split.
    + intros H. destruct (ip_network w r) as [n|] eqn:Hn.
      * destruct (net_contains n a) eqn:Hc.
        -- cbn in H. rewrite Hn in H. cbn in H. rewrite Hc in H.
           discriminate H.
        -- rewrite (loop_step_miss _ _ _ _ _ _ Hn Hc) in H.
           apply IH in H as (pre & r' & post & -> & Hpre & Hbad).
           exists (r :: pre), r', post. repeat split; auto.
           constructor; auto. exists n; auto.
      * exists [], r, rest. repeat split; auto.
    + intros (pre & r' & post & E & Hpre & Hbad).
      destruct pre as [|p pre]; cbn in E; injection E as <- ->.
      * unfold malformed in Hbad. cbn. rewrite Hbad. reflexivity.
      * inversion Hpre as [|? ? (n & Hn & Hc) Hpre']; subst.
        rewrite (loop_step_miss _ _ _ _ _ _ Hn Hc).
        apply IH. exists pre, r', post. auto.
Qed.

Lemma logs_no_propagation tr :
  forallb is_log tr = true ->
  propagation_events tr = [] /\ propagation_attempts tr = []
  /\ create_calls tr = [].
Proof.
  induction tr as [|ev tr IH]; cbn; auto.
  intros H. apply andb_prop in H as [Hev Htr].
  destruct ev; try discriminate Hev. cbn. auto.
Qed.

Lemma loop_logs w rip a ranges :
  forallb is_log (trace (is_okta_ip_loop w rip a ranges)) = true.
Proof.
  induction ranges as [|r rest IH]; cbn; auto.
  destruct (ip_network w r) as [n|]; cbn; auto.
  destruct (net_contains n a); cbn; auto.
  rewrite (M_eta (is_okta_ip_loop w rip a rest)). exact IH.
Qed.

(** With an address that parses, the classifier answers what the scan
    answers, and [None] where the scan raises ValueError. *)
Lemma is_okta_ip_parsed w rip a ranges :
  ip_address w rip = Some a ->
  outcome (is_okta_ip w rip ranges)
  = match outcome (is_okta_ip_loop w rip a ranges) with
    | inl _ => inr JNull
    | inr v => inr v
    end.
Proof.
  intros Ha. unfold is_okta_ip. rewrite Ha. cbn.
  destruct (loop_outcomes w rip a ranges) as [H | [H | H]];
    rewrite (M_eta (is_okta_ip_loop w rip a ranges)) at 1;
    rewrite H; reflexivity.
Qed.

Lemma is_okta_ip_unparsed w rip ranges :
  ip_address w rip = None ->
  is_okta_ip w rip ranges = ([Ev_log (Log_invalid_ip rip)], inr JNull).
Proof. intros Ha. unfold is_okta_ip. rewrite Ha. reflexivity. Qed.

(** No exception escapes the classifier, and it answers [True],
    [False] or [None]. *)
Lemma is_okta_ip_returns w rip ranges :
  exists v, outcome (is_okta_ip w rip ranges) = inr v
            /\ (v = JBool true \/ v = JBool false \/ v = JNull).
Proof.
  destruct (ip_address w rip) as [a|] eqn:Ha.
  - rewrite (is_okta_ip_parsed _ _ _ _ Ha).
    destruct (loop_outcomes w rip a ranges) as [-> | [-> | ->]]; eauto.
  - rewrite (is_okta_ip_unparsed _ _ _ Ha). cbn. eauto.
Qed.

Lemma is_okta_ip_logs w rip ranges :
  forallb is_log (trace (is_okta_ip w rip ranges)) = true.
Proof.
  destruct (ip_address w rip) as [a|] eqn:Ha.
  - unfold is_okta_ip. rewrite Ha. cbn.
    pose proof (loop_logs w rip a ranges) as Hl.
    destruct (is_okta_ip_loop w rip a ranges) as [tr [e|v]]; cbn in *; auto.
    destruct (is_ValueError e); cbn; auto.
    rewrite forallb_app, Hl. reflexivity.
  - rewrite (is_okta_ip_unparsed _ _ _ Ha). reflexivity.
Qed.

(** C3 (as amended).  For an address that parses, the classifier
    returns [True] exactly when some entry is a network containing the
    address and every entry before it is a well-formed network that
    does not; it returns [None] exactly when a malformed entry comes
    before any containing network, the scan stopping there; it returns
    [False] exactly when every entry is a well-formed network that
    does not contain the address.  Entries after the first containing
    network are never parsed. *)
Theorem classifier_scan_outcome (w : World) (requesting_ip : json)
    (a : ip_addr) (okta_ip_ranges : list json) :
  ip_address w requesting_ip = Some a ->
  (outcome (is_okta_ip w requesting_ip okta_ip_ranges) = inr (JBool true)
   <-> exists pre r post,
         okta_ip_ranges = pre ++ r :: post
         /\ Forall (misses w a) pre /\ hits w a r)
  /\ (outcome (is_okta_ip w requesting_ip okta_ip_ranges) = inr JNull
      <-> exists pre r post,
            okta_ip_ranges = pre ++ r :: post
            /\ Forall (misses w a) pre /\ malformed w r)
  /\ (outcome (is_okta_ip w requesting_ip okta_ip_ranges) = inr (JBool false)
      <-> Forall (misses w a) okta_ip_ranges).
Proof.
  intros Ha. rewrite (is_okta_ip_parsed _ _ _ _ Ha).
  pose proof (loop_true_iff w requesting_ip a okta_ip_ranges) as Ht.
  pose proof (loop_raises_iff w requesting_ip a okta_ip_ranges) as Hn.
  pose proof (loop_false_iff w requesting_ip a okta_ip_ranges) as Hf.
  destruct (loop_outcomes w requesting_ip a okta_ip_ranges)
    as [H | [H | H]]; rewrite H in *; cbn; (split; [|split]).
  - exact Ht.
  - split; [discriminate|]. intros E. apply Hn in E. discriminate E.
  - split; [discriminate|]. intros E. apply Hf in E. discriminate E.
  - split; [discriminate|]. intros E. apply Ht in E. discriminate E.
  - split; [discriminate|]. intros E. apply Hn in E. discriminate E.
  - exact Hf.
  - split; [discriminate|]. intros E. apply Ht in E. discriminate E.
  - split; [intros _; apply Hn; reflexivity | reflexivity].
  - split; [discriminate|]. intros E. apply Hf in E. discriminate E.
Qed.

Lemma classifier_scan_outcome_witness :
  let w := healthy_world JNull okta_document in
  let ranges := [JStr "10.20.0.0/16"; JStr "146.112.162.0/24";
                 JStr "not-a-network"] in
  outcome (is_okta_ip w (JStr "146.112.162.1") ranges) = inr (JBool true).
Proof.
  intros w ranges.
  apply (classifier_scan_outcome w (JStr "146.112.162.1")
           (Build_ip_addr V4 2456855041) ranges); [reflexivity|].
  exists [JStr "10.20.0.0/16"], (JStr "146.112.162.0/24"),
         [JStr "not-a-network"].
  split; [reflexivity|]. split.
  - constructor; [|constructor].
    exists (Build_ip_net V4 169082880 4294901760). split; reflexivity.
  - exists (Build_ip_net V4 2456855040 4294967040). split; reflexivity.
Defined.

(** C3, as stated, fails: the address 146.112.162.1 parses and lies
    inside the well-formed network 146.112.162.0/24 of the list, and
    the classifier returns [None], not [True], because a malformed
    entry stands before that network. *)
Lemma malformed_range_hides_match :
  let w := healthy_world JNull okta_document in
  let ranges := [JStr "not-a-network"; JStr "146.112.162.0/24"] in
  exists a n,
    ip_address w (JStr "146.112.162.1") = Some a
    /\ In (JStr "146.112.162.0/24") ranges
    /\ ip_network w (JStr "146.112.162.0/24") = Some n
    /\ net_contains n a = true
    /\ is_okta_ip w (JStr "146.112.162.1") ranges
       = ([Ev_log (Log_invalid_ip (JStr "146.112.162.1"))], inr JNull)
    /\ outcome (is_okta_ip w (JStr "146.112.162.1") ranges)
       <> inr (JBool true).
Proof.
  intros w ranges.
  exists (Build_ip_addr V4 2456855041), (Build_ip_net V4 2456855040 4294967040).
  repeat split; try reflexivity.
  - right; left; reflexivity.
  - discriminate.
Qed.

(** ** The propagator *)

(** The [try] block of lines 120-126 lets nothing out: whatever the
    create call does, the function returns, having issued that one
    call and then only logged. *)
Lemma create_membership_returns cfg w groupName membership :
  exists logs,
    create_membership cfg w groupName membership
    = (Ev_create groupName membership :: logs, inr tt)
    /\ forallb is_log logs = true.
Proof.
  unfold create_membership. cbn.
  repeat case_result; eexists; split; reflexivity.
Qed.

(** A run of the propagator: it is entered once; an exception of
    lines 92-106 leaves it, and past them it returns whatever the
    create call does, having issued that call once. *)
Lemma add_subgroup_run cfg w membership_id :
  exists tr,
    trace (add_subgroup cfg w membership_id)
    = Ev_call_add_subgroup membership_id :: tr
    /\ propagation_attempts tr = []
    /\ outcome (add_subgroup cfg w membership_id)
       = match resolve_parent cfg w with
         | inl e => inl e
         | inr _ => inr tt
         end
    /\ create_calls tr
       = match resolve_parent cfg w with
         | inl _ => []
         | inr groupName => [(groupName, membership_body membership_id)]
         end.
Proof.
  unfold add_subgroup, get_credentials, resolve_parent. cbn.
  destruct (auth_default w _) as [e|cp]; cbn;
    [eexists; repeat split; reflexivity|].
  destruct (credentials_refresh w (fst cp)) as [e|[]]; cbn;
    [eexists; repeat split; reflexivity|].
  destruct (discovery_build w "cloudidentity" "v1") as [e|[]]; cbn;
    [eexists; repeat split; reflexivity|].
  destruct (lookup_execute w _) as [e|resp]; cbn;
    [eexists; repeat split; reflexivity|].
  destruct (dict_get resp "name" JNull) as [e|groupName]; cbn;
    [eexists; repeat split; reflexivity|].
  destruct (create_membership_returns cfg w groupName
              (membership_body membership_id)) as (logs & -> & Hlogs).
  destruct (logs_no_propagation logs Hlogs) as (_ & Hatt & Hcre).
  unfold propagation_attempts, create_calls in *.
  cbn. eexists. repeat split; cbn; rewrite ?Hatt, ?Hcre; reflexivity.
Qed.

Lemma add_subgroup_attempts cfg w membership_id :
  propagation_attempts (trace (add_subgroup cfg w membership_id))
  = [membership_id].
Proof.
  destruct (add_subgroup_run cfg w membership_id) as (tr & -> & H & _).
  unfold propagation_attempts in *. cbn. rewrite H. reflexivity.
Qed.

Lemma add_subgroup_creates cfg w membership_id :
  create_calls (trace (add_subgroup cfg w membership_id))
  = match resolve_parent cfg w with
    | inl _ => []
    | inr groupName => [(groupName, membership_body membership_id)]
    end.
Proof.
  destruct (add_subgroup_run cfg w membership_id) as (tr & -> & _ & _ & H).
  unfold create_calls in *. cbn. exact H.
Qed.

Lemma add_subgroup_outcome cfg w membership_id :
  outcome (add_subgroup cfg w membership_id)
  = match resolve_parent cfg w with
    | inl e => inl e
    | inr _ => inr tt
    end.
Proof.
  destruct (add_subgroup_run cfg w membership_id) as (tr & _ & _ & H & _).
  exact H.
Qed.

(** ** The handler *)

Lemma decode_event_silent w cloud_event :
  trace (decode_event w cloud_event) = [].
Proof.
  unfold decode_event. cbn. repeat case_result; reflexivity.
Qed.

Lemma index_unfold cfg w cloud_event :
  index cfg w cloud_event
  = try_except
      (decoded <- decode_event w cloud_event ;;
       policy cfg w (fst decoded) (snd decoded))
      on_exception.
Proof. reflexivity. Qed.

Lemma index_decode_fails cfg w cloud_event e :
  outcome (decode_event w cloud_event) = inl e ->
  index cfg w cloud_event
  = ([Ev_log (Log_processing_error e)],
     inr ("Error processing cloud event", 500)).
Proof.
  intros H. rewrite index_unfold, (bind_raises _ _ _ H).
  rewrite decode_event_silent. reflexivity.
Qed.

Lemma index_decoded cfg w cloud_event requesting_ip membership_id :
  outcome (decode_event w cloud_event) = inr (requesting_ip, membership_id) ->
  index cfg w cloud_event
  = try_except (policy cfg w requesting_ip membership_id) on_exception.
Proof.
  intros H. rewrite index_unfold, (bind_returns _ _ _ H).
  rewrite decode_event_silent. cbn [fst snd app].
  rewrite <- M_eta. reflexivity.
Qed.

(** Running the propagator and then returning the success tuple. *)
Lemma propagate_then_return cfg w membership_id :
  try_except (add_subgroup cfg w membership_id ;;; ret processed) on_exception
  = match resolve_parent cfg w with
    | inl e =>
        (trace (add_subgroup cfg w membership_id)
           ++ [Ev_log (Log_processing_error e)],
         inr ("Error processing cloud event", 500))
    | inr _ => (trace (add_subgroup cfg w membership_id), inr processed)
    end.
Proof.
  pose proof (add_subgroup_outcome cfg w membership_id) as H.
  destruct (add_subgroup cfg w membership_id) as [tr r]. cbn in *.
  destruct (resolve_parent cfg w); subst r; cbn;
    rewrite ?app_nil_r; reflexivity.
Qed.

Lemma try_except_after {A} (tr : list event) (m : M A) h :
  try_except (tr ++ trace m, outcome m) h
  = (tr ++ trace (try_except m h), outcome (try_except m h)).
Proof.
  destruct m as [tr' [e|a]]; cbn; [|reflexivity].
  destruct (h e). cbn. rewrite app_assoc. reflexivity.
Qed.

(** The handler on a decoded event whose ranges were fetched and are
    not empty: the fetcher's events, then the enforcement under the
    handler's [except] clause. *)
Lemma index_fetched cfg w cloud_event requesting_ip membership_id ranges :
  outcome (decode_event w cloud_event) = inr (requesting_ip, membership_id) ->
  outcome (gather_okta_ip_ranges w) = inr ranges ->
  ranges <> [] ->
  index cfg w cloud_event
  = (trace (gather_okta_ip_ranges w)
       ++ trace (try_except
                   (enforce cfg w requesting_ip membership_id ranges)
                   on_exception),
     outcome (try_except
                (enforce cfg w requesting_ip membership_id ranges)
                on_exception)).
Proof.
  intros Hd Hg Hne. rewrite (index_decoded _ _ _ _ _ Hd).
  unfold policy. rewrite (bind_returns _ _ _ Hg).
  destruct ranges as [|r rest]; [contradiction|].
  apply try_except_after.
Qed.

Lemma index_fetch_empty cfg w cloud_event requesting_ip membership_id :
  outcome (decode_event w cloud_event) = inr (requesting_ip, membership_id) ->
  outcome (gather_okta_ip_ranges w) = inr [] ->
  index cfg w cloud_event
  = (trace (gather_okta_ip_ranges w),
     inr ("Could not retrieve Okta IP ranges", 500)).
Proof.
  intros Hd Hg. rewrite (index_decoded _ _ _ _ _ Hd).
  unfold policy. rewrite (bind_returns _ _ _ Hg). cbn.
  rewrite app_nil_r. reflexivity.
Qed.

Lemma index_fetch_raises cfg w cloud_event requesting_ip membership_id e :
  outcome (decode_event w cloud_event) = inr (requesting_ip, membership_id) ->
  outcome (gather_okta_ip_ranges w) = inl e ->
  index cfg w cloud_event
  = (trace (gather_okta_ip_ranges w) ++ [Ev_log (Log_processing_error e)],
     inr ("Error processing cloud event", 500)).
Proof.
  intros Hd Hg. rewrite (index_decoded _ _ _ _ _ Hd).
  unfold policy. rewrite (bind_raises _ _ _ Hg). reflexivity.
Qed.

(** The enforcement when the classifier is consulted and answers
    [verdict]. *)
Lemma enforce_classified cfg w requesting_ip membership_id ranges verdict :
  restrict_to_trusted_ip cfg = true ->
  truthy requesting_ip = true ->
  outcome (is_okta_ip w requesting_ip ranges) = inr verdict ->
  try_except (enforce cfg w requesting_ip membership_id ranges) on_exception
  = (trace (is_okta_ip w requesting_ip ranges)
       ++ trace (try_except
                   (on_classified cfg w requesting_ip membership_id verdict)
                   on_exception),
     outcome (try_except
                (on_classified cfg w requesting_ip membership_id verdict)
                on_exception)).
Proof.
  intros Hr Ht Hv. unfold enforce. rewrite Hr, Ht.
  rewrite (bind_returns _ _ _ Hv). apply try_except_after.
Qed.

Lemma enforce_skips cfg w requesting_ip membership_id ranges verdict :
  restrict_to_trusted_ip cfg = true ->
  truthy requesting_ip = true ->
  outcome (is_okta_ip w requesting_ip ranges) = inr verdict ->
  truthy verdict = false ->
  try_except (enforce cfg w requesting_ip membership_id ranges) on_exception
  = (trace (is_okta_ip w requesting_ip ranges)
       ++ [Ev_log (Log_not_okta_ignoring requesting_ip membership_id)],
     inr ("Not an Okta IP", 200)).
Proof.
  intros Hr Ht Hv Hf. rewrite (enforce_classified _ _ _ _ _ _ Hr Ht Hv).
  unfold on_classified. rewrite Hf. reflexivity.
Qed.

Lemma enforce_approves cfg w requesting_ip membership_id ranges :
  approved cfg w requesting_ip ranges = true ->
  exists logs,
    forallb is_log logs = true
    /\ try_except (enforce cfg w requesting_ip membership_id ranges)
         on_exception
       = (logs ++ trace (try_except
                           (add_subgroup cfg w membership_id ;;; ret processed)
                           on_exception),
          outcome (try_except
                     (add_subgroup cfg w membership_id ;;; ret processed)
                     on_exception)).
Proof.
  unfold approved. intros Ha.
  destruct (restrict_to_trusted_ip cfg) eqn:Hr.
  - apply andb_prop in Ha as [Ht Hv].
    destruct (outcome (is_okta_ip w requesting_ip ranges))
      as [e|verdict] eqn:Ho; [discriminate Hv|].
    exists (trace (is_okta_ip w requesting_ip ranges)).
    split; [apply is_okta_ip_logs|].
    rewrite (enforce_classified _ _ _ _ _ _ Hr Ht Ho).
    unfold on_classified. rewrite Hv. reflexivity.
  - exists []. split; [reflexivity|].
    unfold enforce. rewrite Hr. cbn [app]. rewrite <- M_eta. reflexivity.
Qed.

Lemma enforce_rejects cfg w requesting_ip membership_id ranges :
  approved cfg w requesting_ip ranges = false ->
  exists logs msg,
    forallb is_log logs = true
    /\ try_except (enforce cfg w requesting_ip membership_id ranges)
         on_exception
       = (logs, inr (msg, 200)).
Proof.
  unfold approved. intros Ha.
  destruct (restrict_to_trusted_ip cfg) eqn:Hr; [|discriminate Ha].
  destruct (truthy requesting_ip) eqn:Ht.
  - destruct (is_okta_ip_returns w requesting_ip ranges) as (v & Hv & _).
    rewrite Hv in Ha. cbn in Ha.
    rewrite (enforce_skips _ _ _ _ _ _ Hr Ht Hv Ha).
    do 2 eexists. split; [|reflexivity].
    rewrite forallb_app, is_okta_ip_logs. reflexivity.
  - unfold enforce. rewrite Hr, Ht. cbn.
    do 2 eexists. split; [|reflexivity]. reflexivity.
Qed.

(** The enforcement when the classifier is consulted and its answer is
    false in a condition: the classifier's events, then the handler's
    own log message and the reply of line 73. *)
Lemma enforce_not_trusted cfg w requesting_ip membership_id ranges verdict :
  restrict_to_trusted_ip cfg = true ->
  truthy requesting_ip = true ->
  outcome (is_okta_ip w requesting_ip ranges) = inr verdict ->
  truthy verdict = false ->
  enforce cfg w requesting_ip membership_id ranges
  = (trace (is_okta_ip w requesting_ip ranges)
       ++ [Ev_log (Log_not_okta_ignoring requesting_ip membership_id)],
     inr ("Not an Okta IP", 200)).
Proof.
  intros Hr Ht Hv Hf. unfold enforce. rewrite Hr, Ht.
  rewrite (bind_returns _ _ _ Hv). unfold on_classified. rewrite Hf.
  reflexivity.
Qed.

(** C10.  For an address string that does not parse, the classifier
    returns [None], which is neither [True] nor [False], after logging
    the invalid format.  The handler treats this [None] as it treats
    [False]: with the restriction on and that (non-empty) address as
    caller, the enforcement of lines 66-79 runs the classifier, logs
    "Not an Okta IP ... Ignoring" and replies ("Not an Okta IP", 200),
    and so does the handler [index] on a decoded event once the ranges
    are fetched, without entering the propagator; and whenever the
    classifier answers [False], on any world, address and list, the
    enforcement does the same after the classifier's events: the same
    log message and the same reply.  The branch of lines 68-73 itself
    does with [None] exactly what it does with [False]. *)
Theorem unparsed_address_yields_None (w : World) (address : string) :
  ip_address w (JStr address) = None ->
  (forall okta_ip_ranges,
     is_okta_ip w (JStr address) okta_ip_ranges
     = ([Ev_log (Log_invalid_ip (JStr address))], inr JNull))
  /\ JNull <> JBool true /\ JNull <> JBool false
  /\ (forall cfg membership_id,
        on_classified cfg w (JStr address) membership_id JNull
        = on_classified cfg w (JStr address) membership_id (JBool false))
  /\ (forall cfg membership_id ranges,
        restrict_to_trusted_ip cfg = true ->
        address <> "" ->
        enforce cfg w (JStr address) membership_id ranges
        = ([Ev_log (Log_invalid_ip (JStr address));
            Ev_log (Log_not_okta_ignoring (JStr address) membership_id)],
           inr ("Not an Okta IP", 200)))
  /\ (forall cfg cloud_event membership_id ranges,
        restrict_to_trusted_ip cfg = true ->
        address <> "" ->
        outcome (decode_event w cloud_event)
        = inr (JStr address, membership_id) ->
        outcome (gather_okta_ip_ranges w) = inr ranges ->
        ranges <> [] ->
        index cfg w cloud_event
        = (trace (gather_okta_ip_ranges w)
             ++ [Ev_log (Log_invalid_ip (JStr address));
                 Ev_log (Log_not_okta_ignoring (JStr address) membership_id)],
           inr ("Not an Okta IP", 200))
        /\ propagation_attempts (trace (index cfg w cloud_event)) = []
        /\ propagation_events (trace (index cfg w cloud_event)) = [])
  /\ (forall cfg w' requesting_ip membership_id ranges,
        restrict_to_trusted_ip cfg = true ->
        truthy requesting_ip = true ->
        outcome (is_okta_ip w' requesting_ip ranges) = inr (JBool false) ->
        enforce cfg w' requesting_ip membership_id ranges
        = (trace (is_okta_ip w' requesting_ip ranges)
             ++ [Ev_log (Log_not_okta_ignoring requesting_ip membership_id)],
           inr ("Not an Okta IP", 200))).
Proof.
  intros Ha.
  assert (Hrun : forall ranges,
             is_okta_ip w (JStr address) ranges
             = ([Ev_log (Log_invalid_ip (JStr address))], inr JNull))
    by (intros ranges; apply is_okta_ip_unparsed, Ha).
  assert (Htruthy : address <> "" -> truthy (JStr address) = true).
  { intros Hne. cbn. apply negb_true_iff, String.eqb_neq, Hne. }
  split; [exact Hrun|].
  split; [discriminate|]. split; [discriminate|].
  split; [reflexivity|].
  split; [|split].
  - intros cfg membership_id ranges Hr Hne.
    rewrite (enforce_not_trusted cfg w (JStr address) membership_id ranges
               JNull Hr (Htruthy Hne));
      [rewrite Hrun; reflexivity | rewrite Hrun; reflexivity | reflexivity].
  - intros cfg cloud_event membership_id ranges Hr Hne Hd Hg Hnil.
    rewrite (index_fetched _ _ _ _ _ _ Hd Hg Hnil).
    rewrite (enforce_skips cfg w (JStr address) membership_id ranges JNull
               Hr (Htruthy Hne));
      [|rewrite Hrun; reflexivity | reflexivity].
    rewrite Hrun. cbn [trace outcome fst snd app].
    rewrite propagation_attempts_app, propagation_events_app.
    rewrite gather_no_attempt, gather_no_propagation. auto.
  - intros cfg w' requesting_ip membership_id ranges Hr Ht Hv.
    apply (enforce_not_trusted _ _ _ _ _ _ Hr Ht Hv). reflexivity.
Qed.

Lemma unparsed_address_yields_None_witness :
  let w := healthy_world (audit_entry (Some (JStr "not an address")) "a@x.org")
             okta_document in
  is_okta_ip w (JStr "not an address") [JStr "146.112.162.0/24"]
  = ([Ev_log (Log_invalid_ip (JStr "not an address"))], inr JNull)
  /\ index restricted w sample_event
     = ([Ev_http_get okta_ip_ranges_url;
         Ev_log (Log_invalid_ip (JStr "not an address"));
         Ev_log (Log_not_okta_ignoring (JStr "not an address")
                   (JStr "a@x.org"))],
        inr ("Not an Okta IP", 200))
  /\ propagation_attempts (trace (index restricted w sample_event)) = [].
Proof.
  intros w.
  destruct (unparsed_address_yields_None w "not an address" eq_refl)
    as (Hcls & _ & _ & _ & _ & Hidx & _).
  split; [apply Hcls|].
  destruct (Hidx restricted sample_event (JStr "a@x.org")
              [JStr "146.112.162.0/24"; JStr "3.14.0.0/16";
               JStr "10.20.0.0/16"])
    as (Hrun & Hatt & _); try reflexivity; try discriminate.
  split; [exact Hrun | exact Hatt].
Defined.

(** C5.  When the event decodes and the fetcher yields the empty
    sequence, the handler returns status 500 and the run contains no
    event of the propagator, whatever the configuration (so for both
    values of the restriction flag). *)
Theorem empty_fetch_fails (cfg : Config) (w : World) (cloud_event : CloudEvent)
    (requesting_ip membership_id : json) :
  outcome (decode_event w cloud_event) = inr (requesting_ip, membership_id) ->
  outcome (gather_okta_ip_ranges w) = inr [] ->
  outcome (index cfg w cloud_event)
  = inr ("Could not retrieve Okta IP ranges", 500)
  /\ status (index cfg w cloud_event) = Some 500
  /\ propagation_events (trace (index cfg w cloud_event)) = []
  /\ propagation_attempts (trace (index cfg w cloud_event)) = [].
Proof.
  intros Hd Hg. rewrite (index_fetch_empty _ _ _ _ _ Hd Hg).
  unfold status. cbn.
  rewrite gather_no_propagation, gather_no_attempt. auto.
Qed.

Lemma empty_fetch_fails_witness :
  let w := with_fetch
             (healthy_world (audit_entry (Some (JStr "146.112.162.1"))
                               "a@x.org") okta_document)
             (inl (RequestException "connection refused")) in
  (status (index restricted w sample_event) = Some 500
   /\ propagation_events (trace (index restricted w sample_event)) = [])
  /\ (status (index unrestricted w sample_event) = Some 500
      /\ propagation_events (trace (index unrestricted w sample_event)) = []).
Proof.
  intros w. split.
  - destruct (empty_fetch_fails restricted w sample_event
                (JStr "146.112.162.1") (JStr "a@x.org") eq_refl eq_refl)
      as (_ & Hs & Hp & _).
    split; assumption.
  - destruct (empty_fetch_fails unrestricted w sample_event
                (JStr "146.112.162.1") (JStr "a@x.org") eq_refl eq_refl)
      as (_ & Hs & Hp & _).
    split; assumption.
Defined.

(** C8 (as amended).  When the restriction flag is set, the event
    decodes with an empty or absent caller address (a value that is
    false in a condition) and the fetcher yields a non-empty sequence,
    the handler logs, returns ("No Requesting IP Found", 200) and the
    run contains no event of the propagator. *)
Theorem empty_caller_skipped (cfg : Config) (w : World)
    (cloud_event : CloudEvent) (requesting_ip membership_id : json)
    (ranges : list json) :
  restrict_to_trusted_ip cfg = true ->
  outcome (decode_event w cloud_event) = inr (requesting_ip, membership_id) ->
  truthy requesting_ip = false ->
  outcome (gather_okta_ip_ranges w) = inr ranges ->
  ranges <> [] ->
  index cfg w cloud_event
  = (trace (gather_okta_ip_ranges w) ++ [Ev_log Log_no_requesting_ip],
     inr ("No Requesting IP Found", 200))
  /\ status (index cfg w cloud_event) = Some 200
  /\ propagation_events (trace (index cfg w cloud_event)) = []
  /\ propagation_attempts (trace (index cfg w cloud_event)) = [].
Proof.
  intros Hr Hd Ht Hg Hne. rewrite (index_fetched _ _ _ _ _ _ Hd Hg Hne).
  unfold enforce, status. rewrite Hr, Ht. cbn.
  rewrite propagation_events_app, propagation_attempts_app.
  rewrite gather_no_propagation, gather_no_attempt. auto.
Qed.

Lemma empty_caller_skipped_witness :
  let w := healthy_world (audit_entry None "a@x.org") okta_document in
  outcome (decode_event w sample_event) = inr (JStr "", JStr "a@x.org")
  /\ status (index restricted w sample_event) = Some 200
  /\ propagation_events (trace (index restricted w sample_event)) = [].
Proof.
  intros w. split; [reflexivity|].
  destruct (empty_caller_skipped restricted w sample_event (JStr "")
              (JStr "a@x.org")
              [JStr "146.112.162.0/24"; JStr "3.14.0.0/16";
               JStr "10.20.0.0/16"])
    as (_ & Hs & Hp & _); try reflexivity; [discriminate|].
  split; assumption.
Defined.

(** C8, as stated, fails: with the flag set and the caller address
    absent, a failed range fetch makes the handler return 500, not
    200. *)
Lemma empty_caller_failed_fetch :
  let w := with_fetch (healthy_world (audit_entry None "a@x.org") okta_document)
             (inl (RequestException "connection refused")) in
  restrict_to_trusted_ip restricted = true
  /\ outcome (decode_event w sample_event) = inr (JStr "", JStr "a@x.org")
  /\ outcome (index restricted w sample_event)
     = inr ("Could not retrieve Okta IP ranges", 500)
  /\ status (index restricted w sample_event) <> Some 200.
Proof.
  intros w. repeat split. discriminate.
Qed.

Lemma untrusted_verdict w requesting_ip ranges :
  untrusted w requesting_ip ranges ->
  exists verdict,
    outcome (is_okta_ip w requesting_ip ranges) = inr verdict
    /\ truthy verdict = false.
Proof.
  intros [Hnone | (a & Ha & Hout)].
  - rewrite (is_okta_ip_unparsed _ _ _ Hnone). exists JNull. auto.
  - rewrite (is_okta_ip_parsed _ _ _ _ Ha).
    destruct (loop_outcomes w requesting_ip a ranges) as [H | [H | H]];
      rewrite H; [|exists (JBool false); auto | exists JNull; auto].
    apply loop_true_iff in H as (pre & r & post & -> & _ & n & Hn & Hc).
    rewrite (Hout r n) in Hc; [discriminate Hc | | exact Hn].
    apply in_or_app. right. left. reflexivity.
Qed.

(** C7 (as amended).  When the restriction flag is set, the event
    decodes with a non-empty caller address, the fetcher yields a
    non-empty sequence and the address is not trusted (it is malformed,
    or it is valid and outside every listed network), the classifier
    returns without an exception, the handler returns
    ("Not an Okta IP", 200) and the run contains no event of the
    propagator. *)
Theorem untrusted_caller_skipped (cfg : Config) (w : World)
    (cloud_event : CloudEvent) (requesting_ip membership_id : json)
    (ranges : list json) :
  restrict_to_trusted_ip cfg = true ->
  outcome (decode_event w cloud_event) = inr (requesting_ip, membership_id) ->
  truthy requesting_ip = true ->
  outcome (gather_okta_ip_ranges w) = inr ranges ->
  ranges <> [] ->
  untrusted w requesting_ip ranges ->
  (exists verdict, outcome (is_okta_ip w requesting_ip ranges) = inr verdict)
  /\ outcome (index cfg w cloud_event) = inr ("Not an Okta IP", 200)
  /\ status (index cfg w cloud_event) = Some 200
  /\ propagation_events (trace (index cfg w cloud_event)) = []
  /\ propagation_attempts (trace (index cfg w cloud_event)) = [].
Proof.
  intros Hr Hd Ht Hg Hne Hun.
  destruct (untrusted_verdict _ _ _ Hun) as (v & Hv & Hf).
  split; [eauto|].
  rewrite (index_fetched _ _ _ _ _ _ Hd Hg Hne).
  rewrite (enforce_skips _ _ _ _ _ _ Hr Ht Hv Hf).
  unfold status. cbn.
  rewrite !propagation_events_app, !propagation_attempts_app.
  rewrite gather_no_propagation, gather_no_attempt.
  destruct (logs_no_propagation _ (is_okta_ip_logs w requesting_ip ranges))
    as (-> & -> & _).
  auto.
Qed.

Lemma untrusted_caller_skipped_witness :
  let outside := healthy_world (audit_entry (Some (JStr "8.8.8.8")) "a@x.org")
                   okta_document in
  let garbled := healthy_world (audit_entry (Some (JStr "8.8.8")) "a@x.org")
                   okta_document in
  (outcome (index restricted outside sample_event)
   = inr ("Not an Okta IP", 200)
   /\ propagation_events (trace (index restricted outside sample_event)) = [])
  /\ (outcome (index restricted garbled sample_event)
      = inr ("Not an Okta IP", 200)
      /\ propagation_events (trace (index restricted garbled sample_event))
         = []).
Proof.
  intros outside garbled. split.
  - assert (H := untrusted_caller_skipped restricted outside sample_event
                   (JStr "8.8.8.8") (JStr "a@x.org")
                   [JStr "146.112.162.0/24"; JStr "3.14.0.0/16";
                    JStr "10.20.0.0/16"]).
    destruct H as (_ & Ho & _ & Hp & _); try reflexivity; [discriminate| |auto].
    right. exists (Build_ip_addr V4 134744072). split; [reflexivity|].
    intros r n [<- | [<- | [<- | []]]] Hn; injection Hn as <-; reflexivity.
  - assert (H := untrusted_caller_skipped restricted garbled sample_event
                   (JStr "8.8.8") (JStr "a@x.org")
                   [JStr "146.112.162.0/24"; JStr "3.14.0.0/16";
                    JStr "10.20.0.0/16"]).
    destruct H as (_ & Ho & _ & Hp & _); try reflexivity; [discriminate| |auto].
    left. reflexivity.
Defined.

(** C7, as stated, fails: with the flag set and the valid caller
    address 8.8.8.8, a failed range fetch leaves an empty list, the
    address is outside every listed range, and the handler returns
    500, not 200. *)
Lemma untrusted_caller_failed_fetch :
  let w := with_fetch
             (healthy_world (audit_entry (Some (JStr "8.8.8.8")) "a@x.org")
                okta_document)
             (inl (RequestException "connection refused")) in
  restrict_to_trusted_ip restricted = true
  /\ outcome (decode_event w sample_event)
     = inr (JStr "8.8.8.8", JStr "a@x.org")
  /\ truthy (JStr "8.8.8.8") = true
  /\ outcome (gather_okta_ip_ranges w) = inr []
  /\ untrusted w (JStr "8.8.8.8") []
  /\ outcome (index restricted w sample_event)
     = inr ("Could not retrieve Okta IP ranges", 500)
  /\ status (index restricted w sample_event) <> Some 200.
Proof.
  intros w. repeat split; try discriminate.
  right. exists (Build_ip_addr V4 134744072). split; [reflexivity|].
  intros r n [].
Qed.

Lemma approved_run cfg w cloud_event requesting_ip membership_id ranges :
  outcome (decode_event w cloud_event) = inr (requesting_ip, membership_id) ->
  outcome (gather_okta_ip_ranges w) = inr ranges ->
  ranges <> [] ->
  approved cfg w requesting_ip ranges = true ->
  propagation_attempts (trace (index cfg w cloud_event)) = [membership_id]
  /\ create_calls (trace (index cfg w cloud_event))
     = expected_create cfg w membership_id
  /\ outcome (index cfg w cloud_event) = inr (after_propagation cfg w).
Proof.
  intros Hd Hg Hne Ha.
  rewrite (index_fetched _ _ _ _ _ _ Hd Hg Hne).
  destruct (enforce_approves cfg w requesting_ip membership_id ranges Ha)
    as (logs & Hlogs & ->).
  destruct (logs_no_propagation logs Hlogs) as (_ & Hatt & Hcre).
  rewrite propagate_then_return.
  unfold after_propagation, expected_create. cbn [trace outcome fst snd].
  pose proof (add_subgroup_attempts cfg w membership_id) as Hpa.
  pose proof (add_subgroup_creates cfg w membership_id) as Hpc.
  destruct (resolve_parent cfg w) as [e|g]; cbn [trace outcome fst snd];
    rewrite !propagation_attempts_app, !create_calls_app,
      gather_no_attempt, gather_no_create, Hatt, Hcre, Hpa, Hpc;
    auto.
Qed.

(** C4 (as amended).  When the restriction flag is not set, the event
    decodes and the fetcher yields a non-empty sequence, the
    propagator is entered exactly once, with the decoded membership
    identifier, whatever the caller address (empty and absent
    included); the create-membership call is issued, once and with
    that identifier, when credential acquisition, client construction
    and group lookup raise nothing, and the handler then returns
    status 200. *)
Theorem unrestricted_propagates (cfg : Config) (w : World)
    (cloud_event : CloudEvent) (requesting_ip membership_id : json)
    (ranges : list json) :
  restrict_to_trusted_ip cfg = false ->
  outcome (decode_event w cloud_event) = inr (requesting_ip, membership_id) ->
  outcome (gather_okta_ip_ranges w) = inr ranges ->
  ranges <> [] ->
  propagation_attempts (trace (index cfg w cloud_event)) = [membership_id]
  /\ forall groupName,
       resolve_parent cfg w = inr groupName ->
       create_calls (trace (index cfg w cloud_event))
       = [(groupName, membership_body membership_id)]
       /\ outcome (index cfg w cloud_event)
          = inr ("Group Event Processed Successfully", 200).
Proof.
  intros Hr Hd Hg Hne.
  assert (Ha : approved cfg w requesting_ip ranges = true)
    by (unfold approved; rewrite Hr; reflexivity).
  destruct (approved_run _ _ _ _ _ _ Hd Hg Hne Ha) as (Hatt & Hcre & Hout).
  split; [exact Hatt|]. intros g Hg'.
  unfold expected_create in Hcre. unfold after_propagation in Hout.
  rewrite Hg' in Hcre, Hout. auto.
Qed.

Lemma unrestricted_propagates_witness :
  let w := healthy_world (audit_entry None "a@x.org") okta_document in
  propagation_attempts (trace (index unrestricted w sample_event))
  = [JStr "a@x.org"]
  /\ create_calls (trace (index unrestricted w sample_event))
     = [(JStr "groups/01abc", membership_body (JStr "a@x.org"))]
  /\ outcome (index unrestricted w sample_event)
     = inr ("Group Event Processed Successfully", 200).
Proof.
  intros w.
  destruct (unrestricted_propagates unrestricted w sample_event (JStr "")
              (JStr "a@x.org")
              [JStr "146.112.162.0/24"; JStr "3.14.0.0/16";
               JStr "10.20.0.0/16"])
    as (Hatt & Hrun); try reflexivity; [discriminate|].
  destruct (Hrun (JStr "groups/01abc") eq_refl) as (Hcre & Hout).
  repeat split; assumption.
Defined.

(** C4, as stated, fails: with the flag not set, a range document
    without any range makes the handler return 500 without entering
    the propagator: no create-membership call is attempted. *)
Lemma unrestricted_empty_fetch :
  let w := healthy_world (audit_entry (Some (JStr "146.112.162.1")) "a@x.org")
             (JObj []) in
  restrict_to_trusted_ip unrestricted = false
  /\ outcome (decode_event w sample_event)
     = inr (JStr "146.112.162.1", JStr "a@x.org")
  /\ index unrestricted w sample_event
     = ([Ev_http_get okta_ip_ranges_url],
        inr ("Could not retrieve Okta IP ranges", 500))
  /\ propagation_attempts (trace (index unrestricted w sample_event)) = []
  /\ create_calls (trace (index unrestricted w sample_event)) = [].
Proof.
  intros w. repeat split.
Qed.

(** C6 (as amended).  When the restriction flag is set, the event
    decodes with a non-empty caller address that parses, and the
    fetched list has a network containing the address with only
    well-formed networks before it, the propagator is entered exactly
    once, with the decoded membership identifier; the
    create-membership call is issued once and the handler returns
    status 200 when credential acquisition, client construction and
    group lookup raise nothing; when one of them raises, no create
    call is issued and the handler returns status 500. *)
Theorem trusted_caller_propagates (cfg : Config) (w : World)
    (cloud_event : CloudEvent) (requesting_ip membership_id : json)
    (ranges : list json) (a : ip_addr) :
  restrict_to_trusted_ip cfg = true ->
  outcome (decode_event w cloud_event) = inr (requesting_ip, membership_id) ->
  truthy requesting_ip = true ->
  outcome (gather_okta_ip_ranges w) = inr ranges ->
  ip_address w requesting_ip = Some a ->
  (exists pre r post,
     ranges = pre ++ r :: post /\ Forall (misses w a) pre /\ hits w a r) ->
  propagation_attempts (trace (index cfg w cloud_event)) = [membership_id]
  /\ (forall groupName,
        resolve_parent cfg w = inr groupName ->
        create_calls (trace (index cfg w cloud_event))
        = [(groupName, membership_body membership_id)]
        /\ outcome (index cfg w cloud_event)
           = inr ("Group Event Processed Successfully", 200))
  /\ (forall e,
        resolve_parent cfg w = inl e ->
        create_calls (trace (index cfg w cloud_event)) = []
        /\ outcome (index cfg w cloud_event)
           = inr ("Error processing cloud event", 500)).
Proof.
  intros Hr Hd Ht Hg Hip Hhit.
  assert (Hne : ranges <> []).
  { destruct Hhit as (pre & r & post & -> & _). destruct pre; discriminate. }
  assert (Ha : approved cfg w requesting_ip ranges = true).
  { unfold approved. rewrite Hr, Ht, (is_okta_ip_parsed _ _ _ _ Hip).
    apply (proj2 (loop_true_iff w requesting_ip a ranges)) in Hhit.
    rewrite Hhit. reflexivity. }
  destruct (approved_run _ _ _ _ _ _ Hd Hg Hne Ha) as (Hatt & Hcre & Hout).
  unfold expected_create in Hcre. unfold after_propagation in Hout.
  split; [exact Hatt|].
  split; intros x Hx; rewrite Hx in Hcre, Hout; auto.
Qed.

Lemma trusted_caller_propagates_witness :
  let w := healthy_world (audit_entry (Some (JStr "146.112.162.1")) "a@x.org")
             okta_document in
  propagation_attempts (trace (index restricted w sample_event))
  = [JStr "a@x.org"]
  /\ create_calls (trace (index restricted w sample_event))
     = [(JStr "groups/01abc", membership_body (JStr "a@x.org"))]
  /\ outcome (index restricted w sample_event)
     = inr ("Group Event Processed Successfully", 200).
Proof.
  intros w.
  destruct (trusted_caller_propagates restricted w sample_event
              (JStr "146.112.162.1") (JStr "a@x.org")
              [JStr "146.112.162.0/24"; JStr "3.14.0.0/16";
               JStr "10.20.0.0/16"]
              (Build_ip_addr V4 2456855041))
    as (Hatt & Hok & _); try reflexivity.
  - exists [], (JStr "146.112.162.0/24"),
           [JStr "3.14.0.0/16"; JStr "10.20.0.0/16"].
    split; [reflexivity|]. split; [constructor|].
    exists (Build_ip_net V4 2456855040 4294967040). split; reflexivity.
  - destruct (Hok (JStr "groups/01abc") eq_refl) as (Hcre & Hout).
    repeat split; assumption.
Defined.

(** C6, as stated, fails, in two ways.  With the flag set and the
    caller 146.112.162.1 inside the listed network 146.112.162.0/24:
    when the credential provider raises, the propagator is entered and
    the handler returns 500, not 200; and when a malformed entry
    stands before that network in the fetched list, the classifier
    returns [None] and the propagator is not entered at all. *)
Lemma trusted_caller_not_processed :
  let message := audit_entry (Some (JStr "146.112.162.1")) "a@x.org" in
  let no_creds := with_auth_default (healthy_world message okta_document)
                    (inl (OtherException "DefaultCredentialsError")) in
  let bad_list := healthy_world message
                    (JObj [("cell", JObj [("ip_ranges",
                       JArr [JStr "not-a-network";
                             JStr "146.112.162.0/24"])])]) in
  restrict_to_trusted_ip restricted = true
  /\ (exists a n,
        ip_address no_creds (JStr "146.112.162.1") = Some a
        /\ ip_network no_creds (JStr "146.112.162.0/24") = Some n
        /\ net_contains n a = true)
  /\ (outcome (gather_okta_ip_ranges no_creds)
      = inr [JStr "146.112.162.0/24"; JStr "3.14.0.0/16"; JStr "10.20.0.0/16"]
      /\ outcome (index restricted no_creds sample_event)
         = inr ("Error processing cloud event", 500)
      /\ create_calls (trace (index restricted no_creds sample_event)) = [])
  /\ (outcome (gather_okta_ip_ranges bad_list)
      = inr [JStr "not-a-network"; JStr "146.112.162.0/24"]
      /\ outcome (index restricted bad_list sample_event)
         = inr ("Not an Okta IP", 200)
      /\ propagation_attempts (trace (index restricted bad_list sample_event))
         = []).
Proof.
  intros message no_creds bad_list. repeat split.
  exists (Build_ip_addr V4 2456855041), (Build_ip_net V4 2456855040 4294967040).
  repeat split.
Qed.





(** C2 (as amended).  The handler always returns, with status 200 or
    500.  It returns 500 exactly when the envelope fails to decode,
    when the range fetcher raises or yields the empty sequence, or
    when, in the Approved state, credential acquisition, client
    construction or group lookup raises; every other outcome returns
    200. *)
Theorem index_status (cfg : Config) (w : World) (cloud_event : CloudEvent) :
  status (index cfg w cloud_event)
  = Some (if reports_failure cfg w cloud_event then 500 else 200).
Proof.
  unfold reports_failure.
  destruct (outcome (decode_event w cloud_event))
    as [e|[requesting_ip membership_id]] eqn:Hd.
  - rewrite (index_decode_fails _ _ _ _ Hd). reflexivity.
  - destruct (outcome (gather_okta_ip_ranges w)) as [e|[|r rest]] eqn:Hg.
    + rewrite (index_fetch_raises _ _ _ _ _ _ Hd Hg). reflexivity.
    + rewrite (index_fetch_empty _ _ _ _ _ Hd Hg). reflexivity.
    + assert (Hne : r :: rest <> []) by discriminate.
      rewrite (index_fetched _ _ _ _ _ _ Hd Hg Hne).
      destruct (approved cfg w requesting_ip (r :: rest)) eqn:Ha.
      * destruct (enforce_approves cfg w requesting_ip membership_id _ Ha)
          as (logs & _ & ->).
        rewrite propagate_then_return.
        destruct (resolve_parent cfg w); reflexivity.
      * destruct (enforce_rejects cfg w requesting_ip membership_id _ Ha)
          as (logs & msg & _ & ->).
        reflexivity.
Qed.

(** C2, as stated, fails: an event without the [message] field is a
    decode failure; the range fetch is not even attempted, and the
    handler returns 500, not 200. *)
Lemma decode_failure_reports_500 :
  let w := healthy_world (audit_entry None "a@x.org") okta_document in
  outcome (decode_event w (Build_CloudEvent (JObj [])))
  = inl (KeyError "message")
  /\ index unrestricted w (Build_CloudEvent (JObj []))
     = ([Ev_log (Log_processing_error (KeyError "message"))],
        inr ("Error processing cloud event", 500))
  /\ status (index unrestricted w (Build_CloudEvent (JObj []))) <> Some 200.
Proof.
  intros w. repeat split. discriminate.
Qed.

(** * Further properties *)

(** ** More on the range fetcher *)

Lemma gather_loop_tolerated cells :
  forallb is_tolerated_cell cells = true ->
  forall acc,
    gather_loop cells acc = ([], inr (acc ++ flattened_cells cells)).
Proof.
  unfold flattened_cells.
  induction cells as [|cell rest IH]; intros Hok acc.
  - cbn. rewrite app_nil_r. reflexivity.
  - cbn [forallb] in Hok. apply andb_prop in Hok as [Hcell Hrest].
    destruct cell as [| | | |s|items|fields]; try discriminate Hcell.
    + cbn in Hcell. apply negb_true_iff in Hcell.
      cbn [gather_loop contains_str]. unfold lift at 1.
      cbn [bind has_ip_ranges filter]. rewrite Hcell, (IH Hrest). reflexivity.
    + cbn in Hcell. apply negb_true_iff in Hcell.
      cbn [gather_loop contains_str]. unfold lift at 1.
      cbn [bind has_ip_ranges filter]. rewrite Hcell, (IH Hrest). reflexivity.
    + cbn [is_tolerated_cell is_range_cell] in Hcell.
      cbn [gather_loop contains_str getitem_str has_ip_ranges filter].
      destruct (assoc "ip_ranges" fields) as [v|] eqn:Hf.
      * destruct v; try discriminate Hcell.
        cbn. rewrite (IH Hrest). cbn. rewrite Hf, app_assoc. reflexivity.
      * cbn. rewrite (IH Hrest). reflexivity.
Qed.

Lemma gather_loop_offending cell rest acc :
  is_offending_cell cell = true ->
  gather_loop (cell :: rest) acc = ([], inl TypeError).
Proof.
  intros Hbad.
  destruct cell as [| | | |s|items|fields]; try reflexivity.
  - cbn in Hbad. cbn [gather_loop contains_str]. unfold lift at 1.
    cbn [bind]. rewrite Hbad. reflexivity.
  - cbn in Hbad. cbn [gather_loop contains_str]. unfold lift at 1.
    cbn [bind]. rewrite Hbad. reflexivity.
  - cbn in Hbad. cbn [gather_loop contains_str getitem_str].
    destruct (assoc "ip_ranges" fields) as [v|]; [|discriminate Hbad].
    destruct v; try discriminate Hbad; reflexivity.
Qed.

Lemma gather_loop_app cells1 cells2 :
  forall acc,
    gather_loop (cells1 ++ cells2) acc
    = (acc' <- gather_loop cells1 acc ;; gather_loop cells2 acc').
Proof.
  induction cells1 as [|cell rest IH]; intros acc.
  - cbn. destruct (gather_loop cells2 acc). reflexivity.
  - cbn [app gather_loop].
    destruct (contains_str "ip_ranges" cell) as [e|[|]]; cbn.
    + reflexivity.
    + destruct (getitem_str cell "ip_ranges") as [e|v]; cbn; [reflexivity|].
      destruct (iter_items v) as [e|items]; cbn; [reflexivity|].
      rewrite IH. cbn.
      destruct (gather_loop rest (acc ++ items)) as [tr [e|l]]; cbn;
        [reflexivity|].
      destruct (gather_loop cells2 l). cbn. rewrite ?app_nil_r. reflexivity.
    + rewrite IH. cbn.
      destruct (gather_loop rest acc) as [tr [e|l]]; cbn; [reflexivity|].
      destruct (gather_loop cells2 l). cbn. rewrite ?app_nil_r. reflexivity.
Qed.

Lemma gather_on_document w fields :
  requests_get_json w okta_ip_ranges_url = inr (JObj fields) ->
  gather_okta_ip_ranges w
  = try_except_class is_RequestException
      (emit (Ev_http_get okta_ip_ranges_url) ;;;
       gather_loop (map snd fields) [])
      (fun e => logging_info (Log_fetch_error e) ;;; ret []).
Proof.
  intros H. unfold gather_okta_ip_ranges. rewrite H. cbn.
  destruct (gather_loop (map snd fields) []) as [tr r]. reflexivity.
Qed.

(** X1.  When the HTTP fetch raises a request exception, the fetcher
    logs it and returns the empty list, and the handler, on a decoded
    event, answers ("Could not retrieve Okta IP ranges", 500) after
    those two events, whatever the configuration. *)
Theorem request_exception_reported (cfg : Config) (w : World)
    (cloud_event : CloudEvent) (requesting_ip membership_id : json)
    (msg : string) :
  outcome (decode_event w cloud_event) = inr (requesting_ip, membership_id) ->
  requests_get_json w okta_ip_ranges_url = inl (RequestException msg) ->
  gather_okta_ip_ranges w
  = ([Ev_http_get okta_ip_ranges_url;
      Ev_log (Log_fetch_error (RequestException msg))], inr [])
  /\ index cfg w cloud_event
     = ([Ev_http_get okta_ip_ranges_url;
         Ev_log (Log_fetch_error (RequestException msg))],
        inr ("Could not retrieve Okta IP ranges", 500)).
Proof.
  intros Hd Hget.
  assert (Hg : gather_okta_ip_ranges w
               = ([Ev_http_get okta_ip_ranges_url;
                   Ev_log (Log_fetch_error (RequestException msg))], inr []))
    by (unfold gather_okta_ip_ranges; rewrite Hget; reflexivity).
  split; [exact Hg|].
  rewrite (index_fetch_empty cfg w cloud_event requesting_ip membership_id Hd)
    by (rewrite Hg; reflexivity).
  rewrite Hg. reflexivity.
Qed.

Lemma request_exception_reported_witness :
  let w := with_fetch
             (healthy_world (audit_entry None "a@x.org") okta_document)
             (inl (RequestException "timed out")) in
  index unrestricted w sample_event
  = ([Ev_http_get okta_ip_ranges_url;
      Ev_log (Log_fetch_error (RequestException "timed out"))],
     inr ("Could not retrieve Okta IP ranges", 500)).
Proof.
  intros w.
  apply (request_exception_reported unrestricted w sample_event (JStr "")
           (JStr "a@x.org") "timed out"); reflexivity.
Defined.

(** X2.  An exception of the HTTP fetch that is not a request
    exception is not caught by the fetcher: it leaves it unlogged, and
    the handler, on a decoded event, answers
    ("Error processing cloud event", 500). *)
Theorem other_fetch_exception_escapes (cfg : Config) (w : World)
    (cloud_event : CloudEvent) (requesting_ip membership_id : json)
    (e : exn) :
  outcome (decode_event w cloud_event) = inr (requesting_ip, membership_id) ->
  requests_get_json w okta_ip_ranges_url = inl e ->
  is_RequestException e = false ->
  gather_okta_ip_ranges w = ([Ev_http_get okta_ip_ranges_url], inl e)
  /\ index cfg w cloud_event
     = ([Ev_http_get okta_ip_ranges_url; Ev_log (Log_processing_error e)],
        inr ("Error processing cloud event", 500)).
Proof.
  intros Hd Hget Hcls.
  assert (Hg : gather_okta_ip_ranges w
               = ([Ev_http_get okta_ip_ranges_url], inl e))
    by (unfold gather_okta_ip_ranges; rewrite Hget; cbn; rewrite Hcls;
        reflexivity).
  split; [exact Hg|].
  rewrite (index_fetch_raises cfg w cloud_event requesting_ip membership_id e
             Hd) by (rewrite Hg; reflexivity).
  rewrite Hg. reflexivity.
Qed.

Lemma other_fetch_exception_escapes_witness :
  let w := with_fetch
             (healthy_world (audit_entry None "a@x.org") okta_document)
             (inl ValueError) in
  index unrestricted w sample_event
  = ([Ev_http_get okta_ip_ranges_url; Ev_log (Log_processing_error ValueError)],
     inr ("Error processing cloud event", 500)).
Proof.
  intros w.
  apply (other_fetch_exception_escapes unrestricted w sample_event (JStr "")
           (JStr "a@x.org") ValueError); reflexivity.
Defined.

(** X3.  No request exception ever leaves the fetcher: an exception
    that escapes it is outside that class. *)
Theorem gather_leaks_no_request_exception (w : World) (e : exn) :
  outcome (gather_okta_ip_ranges w) = inl e ->
  is_RequestException e = false.
Proof.
  unfold gather_okta_ip_ranges.
  destruct (_ ;;; _) as [tr [e'|l]]; cbn; [|discriminate].
  destruct (is_RequestException e') eqn:Hcls; cbn; [discriminate|].
  intros H. injection H as <-. exact Hcls.
Qed.

Lemma gather_leaks_no_request_exception_witness :
  let w := healthy_world JNull (JArr [JStr "146.112.162.0/24"]) in
  outcome (gather_okta_ip_ranges w) = inl AttributeError
  /\ is_RequestException AttributeError = false.
Proof.
  intros w. split; [reflexivity|].
  apply (gather_leaks_no_request_exception w AttributeError).
  reflexivity.
Defined.

(** X4.  The fetcher gets past top-level values that are not objects
    when they are lists or strings that do not mention [ip_ranges]:
    with such values and range cells only, it returns the
    concatenation of the [ip_ranges] lists, in order. *)
Theorem gather_tolerates_plain_values (w : World)
    (entries : list (string * json)) :
  requests_get_json w okta_ip_ranges_url = inr (JObj entries) ->
  forallb is_tolerated_cell (map snd entries) = true ->
  gather_okta_ip_ranges w
  = ([Ev_http_get okta_ip_ranges_url], inr (flattened_ranges entries)).
Proof.
  intros Hget Hok. rewrite (gather_on_document _ _ Hget).
  rewrite (gather_loop_tolerated _ Hok []). reflexivity.
Qed.

Lemma gather_tolerates_plain_values_witness :
  let document :=
    [("updated", JStr "2024-05-01");
     ("us_cell_1", JObj [("ip_ranges", JArr [JStr "146.112.162.0/24"])]);
     ("regions", JArr [JStr "us"; JStr "emea"])] in
  gather_okta_ip_ranges (healthy_world JNull (JObj document))
  = ([Ev_http_get okta_ip_ranges_url], inr [JStr "146.112.162.0/24"]).
Proof.
  intros document.
  apply (gather_tolerates_plain_values
           (healthy_world JNull (JObj document)) document); reflexivity.
Defined.

(** X5.  The fetcher raises TypeError, uncaught, at the first
    top-level value that is a null, boolean or number, a list or
    string that mentions [ip_ranges], or an object whose [ip_ranges]
    is a null, boolean or number; the ranges gathered before it are
    lost and the handler, on a decoded event, answers
    ("Error processing cloud event", 500). *)
Theorem gather_offending_value_raises (cfg : Config) (w : World)
    (cloud_event : CloudEvent) (requesting_ip membership_id : json)
    (entries : list (string * json)) (pre post : list json) (bad : json) :
  outcome (decode_event w cloud_event) = inr (requesting_ip, membership_id) ->
  requests_get_json w okta_ip_ranges_url = inr (JObj entries) ->
  map snd entries = pre ++ bad :: post ->
  forallb is_tolerated_cell pre = true ->
  is_offending_cell bad = true ->
  gather_okta_ip_ranges w = ([Ev_http_get okta_ip_ranges_url], inl TypeError)
  /\ index cfg w cloud_event
     = ([Ev_http_get okta_ip_ranges_url;
         Ev_log (Log_processing_error TypeError)],
        inr ("Error processing cloud event", 500)).
Proof.
  intros Hd Hget Hsplit Hpre Hbad.
  assert (Hg : gather_okta_ip_ranges w
               = ([Ev_http_get okta_ip_ranges_url], inl TypeError)).
  { rewrite (gather_on_document _ _ Hget), Hsplit, gather_loop_app.
    rewrite (gather_loop_tolerated _ Hpre []). cbn [bind].
    rewrite (gather_loop_offending _ _ _ Hbad). reflexivity. }
  split; [exact Hg|].
  rewrite (index_fetch_raises cfg w cloud_event requesting_ip membership_id
             TypeError Hd) by (rewrite Hg; reflexivity).
  rewrite Hg. reflexivity.
Qed.

Lemma gather_offending_value_raises_witness :
  let document :=
    [("us_cell_1", JObj [("ip_ranges", JArr [JStr "146.112.162.0/24"])]);
     ("version", JInt 3)] in
  let w := healthy_world (audit_entry None "a@x.org") (JObj document) in
  index unrestricted w sample_event
  = ([Ev_http_get okta_ip_ranges_url; Ev_log (Log_processing_error TypeError)],
     inr ("Error processing cloud event", 500)).
Proof.
  intros document w.
  apply (gather_offending_value_raises unrestricted w sample_event (JStr "")
           (JStr "a@x.org") document
           [JObj [("ip_ranges", JArr [JStr "146.112.162.0/24"])]] []
           (JInt 3)); reflexivity.
Defined.

(** X6.  An [ip_ranges] field that holds a string is extended
    character by character: between the ranges of the cells before it
    and of the cells after it, the fetcher returns one one-character
    entry per character of the string. *)
Theorem gather_string_field_by_characters (w : World)
    (entries : list (string * json)) (pre post : list json)
    (fields : list (string * json)) (s : string) :
  requests_get_json w okta_ip_ranges_url = inr (JObj entries) ->
  map snd entries = pre ++ JObj fields :: post ->
  forallb is_tolerated_cell pre = true ->
  forallb is_tolerated_cell post = true ->
  assoc "ip_ranges" fields = Some (JStr s) ->
  gather_okta_ip_ranges w
  = ([Ev_http_get okta_ip_ranges_url],
     inr (flattened_cells pre ++ chars s ++ flattened_cells post)).
Proof.
  intros Hget Hsplit Hpre Hpost Hs.
  rewrite (gather_on_document _ _ Hget), Hsplit, gather_loop_app.
  rewrite (gather_loop_tolerated _ Hpre []). cbn [bind app].
  cbn [gather_loop contains_str getitem_str]. rewrite Hs. cbn.
  rewrite (gather_loop_tolerated _ Hpost). cbn.
  rewrite app_assoc. reflexivity.
Qed.

Lemma gather_string_field_by_characters_witness :
  let document :=
    [("us_cell_1", JObj [("ip_ranges", JArr [JStr "146.112.162.0/24"])]);
     ("emea_cell_1", JObj [("ip_ranges", JStr "1.2/3")])] in
  gather_okta_ip_ranges (healthy_world JNull (JObj document))
  = ([Ev_http_get okta_ip_ranges_url],
     inr [JStr "146.112.162.0/24";
          JStr "1"; JStr "."; JStr "2"; JStr "/"; JStr "3"]).
Proof.
  intros document.
  apply (gather_string_field_by_characters
           (healthy_world JNull (JObj document)) document
           [JObj [("ip_ranges", JArr [JStr "146.112.162.0/24"])]] []
           [("ip_ranges", JStr "1.2/3")] "1.2/3"); reflexivity.
Defined.

(** ** More on the classifier *)

Lemma loop_runs w rip a ranges :
  (exists r, In r ranges
             /\ is_okta_ip_loop w rip a ranges
                = ([Ev_log (Log_found_okta_ip rip r)], inr (JBool true)))
  \/ is_okta_ip_loop w rip a ranges
     = ([Ev_log (Log_non_okta_ip rip)], inr (JBool false))
  \/ is_okta_ip_loop w rip a ranges = ([], inl ValueError).
Proof.
  induction ranges as [|r rest IH]; [right; left; reflexivity|].
  cbn [is_okta_ip_loop].
  destruct (ip_network w r) as [n|]; cbn; [|right; right; reflexivity].
  destruct (net_contains n a); cbn.
  - left. exists r. split; [left|]; reflexivity.
  - destruct IH as [(r' & Hin & ->) | [-> | ->]].
    + left. exists r'. split; [right; exact Hin | reflexivity].
    + right; left; reflexivity.
    + right; right; reflexivity.
Qed.

Lemma loop_stops_early w rip a ranges more :
  outcome (is_okta_ip_loop w rip a ranges) <> inr (JBool false) ->
  is_okta_ip_loop w rip a (ranges ++ more) = is_okta_ip_loop w rip a ranges.
Proof.
  induction ranges as [|r rest IH]; intros Hne.
  - cbn in Hne. contradiction Hne. reflexivity.
  - cbn [app is_okta_ip_loop] in *.
    destruct (ip_network w r) as [n|]; cbn in *; [|reflexivity].
    destruct (net_contains n a); cbn in *; [reflexivity|].
    rewrite IH; [reflexivity|].
    destruct (is_okta_ip_loop w rip a rest). exact Hne.
Qed.

(** X7.  The classifier never vouches for an address without a
    network: when it returns [True], the address parsed and some entry
    of the list parsed as a network that contains it. *)
Theorem classifier_sound (w : World) (requesting_ip : json)
    (okta_ip_ranges : list json) :
  outcome (is_okta_ip w requesting_ip okta_ip_ranges) = inr (JBool true) ->
  exists a r n,
    ip_address w requesting_ip = Some a
    /\ In r okta_ip_ranges
    /\ ip_network w r = Some n
    /\ net_contains n a = true.
Proof.
  intros H. destruct (ip_address w requesting_ip) as [a|] eqn:Ha.
  - rewrite (is_okta_ip_parsed _ _ _ _ Ha) in H.
    destruct (loop_outcomes w requesting_ip a okta_ip_ranges)
      as [Hl | [Hl | Hl]]; rewrite Hl in H; try discriminate H.
    apply loop_true_iff in Hl as (pre & r & post & -> & _ & n & Hn & Hc).
    exists a, r, n. repeat split; auto.
    apply in_or_app. right. left. reflexivity.
  - rewrite (is_okta_ip_unparsed _ _ _ Ha) in H. discriminate H.
Qed.

Lemma classifier_sound_witness :
  exists a r n,
    IPv4Text.ip_address (JStr "146.112.162.1") = Some a
    /\ In r [JStr "10.20.0.0/16"; JStr "146.112.162.0/24"]
    /\ IPv4Text.ip_network r = Some n
    /\ net_contains n a = true.
Proof.
  apply (classifier_sound (healthy_world JNull okta_document)
           (JStr "146.112.162.1")
           [JStr "10.20.0.0/16"; JStr "146.112.162.0/24"]).
  reflexivity.
Defined.

(** X8.  Every run of the classifier logs exactly one message, and
    the message tells the answer: "Found Okta IP", naming an entry of
    the list, with [True]; "Non-Okta IP" with [False]; "Invalid IP
    address format", naming the requesting address, with [None] (also
    when it is a range entry that failed to parse). *)
Theorem classifier_logs_once (w : World) (requesting_ip : json)
    (okta_ip_ranges : list json) :
  (exists range_str,
     In range_str okta_ip_ranges
     /\ is_okta_ip w requesting_ip okta_ip_ranges
        = ([Ev_log (Log_found_okta_ip requesting_ip range_str)],
           inr (JBool true)))
  \/ is_okta_ip w requesting_ip okta_ip_ranges
     = ([Ev_log (Log_non_okta_ip requesting_ip)], inr (JBool false))
  \/ is_okta_ip w requesting_ip okta_ip_ranges
     = ([Ev_log (Log_invalid_ip requesting_ip)], inr JNull).
Proof.
  destruct (ip_address w requesting_ip) as [a|] eqn:Ha.
  - unfold is_okta_ip. rewrite Ha. cbn.
    destruct (loop_runs w requesting_ip a okta_ip_ranges)
      as [(r & Hin & ->) | [-> | ->]]; cbn.
    + left. exists r. split; [exact Hin | reflexivity].
    + right; left; reflexivity.
    + right; right; reflexivity.
  - right; right. apply is_okta_ip_unparsed, Ha.
Qed.

(** X9.  The scan is short-circuit: once the classifier has returned
    [True] or [None] on a list, entries appended to the list change
    neither its answer nor what it logs. *)
Theorem classifier_ignores_later_entries (w : World) (requesting_ip : json)
    (okta_ip_ranges more : list json) :
  outcome (is_okta_ip w requesting_ip okta_ip_ranges) = inr (JBool true)
  \/ outcome (is_okta_ip w requesting_ip okta_ip_ranges) = inr JNull ->
  is_okta_ip w requesting_ip (okta_ip_ranges ++ more)
  = is_okta_ip w requesting_ip okta_ip_ranges.
Proof.
  intros H. destruct (ip_address w requesting_ip) as [a|] eqn:Ha.
  - assert (Hl : outcome (is_okta_ip_loop w requesting_ip a okta_ip_ranges)
                 <> inr (JBool false)).
    { rewrite (is_okta_ip_parsed _ _ _ _ Ha) in H. intros E.
      rewrite E in H. destruct H as [H | H]; discriminate H. }
    unfold is_okta_ip. rewrite Ha. cbn [or_ValueError].
    unfold ret at 1 3. cbn [bind].
    rewrite (loop_stops_early _ _ _ _ more Hl). reflexivity.
  - rewrite !(is_okta_ip_unparsed _ _ _ Ha). reflexivity.
Qed.

Lemma classifier_ignores_later_entries_witness :
  let w := healthy_world JNull okta_document in
  is_okta_ip w (JStr "146.112.162.1")
    ([JStr "146.112.162.0/24"] ++ [JStr "not-a-network"; JStr "8.8.8.0/24"])
  = is_okta_ip w (JStr "146.112.162.1") [JStr "146.112.162.0/24"].
Proof.
  intros w.
  apply (classifier_ignores_later_entries w (JStr "146.112.162.1")
           [JStr "146.112.162.0/24"]
           [JStr "not-a-network"; JStr "8.8.8.0/24"]).
  left. reflexivity.
Defined.

(** ** More on the propagator *)

Lemma logs_expected cfg w membership_id logs :
  forallb is_log logs = true ->
  Forall (expected_event cfg w membership_id) logs /\ http_gets logs = [].
Proof.
  induction logs as [|ev logs IH]; cbn; [auto|].
  intros H. apply andb_prop in H as [Hev Hlogs].
  destruct ev; try discriminate Hev.
  destruct (IH Hlogs) as [HF Hg]. split; [constructor; [exact I | exact HF]|].
  exact Hg.
Qed.


(** Every event of the propagator carries the fixed arguments, and the
    propagator fetches nothing over HTTP. *)
Lemma add_subgroup_expected cfg w membership_id :
  Forall (expected_event cfg w membership_id)
         (trace (add_subgroup cfg w membership_id))
  /\ http_gets (trace (add_subgroup cfg w membership_id)) = [].
Proof.
  unfold add_subgroup, get_credentials. cbn.
  pose proof (eq_refl (resolve_parent cfg w)) as Hres.
  unfold resolve_parent at 2 in Hres.
  destruct (auth_default w _) as [e|cp]; cbn;
    [split; [repeat constructor | reflexivity]|].
  destruct (credentials_refresh w (fst cp)) as [e|[]]; cbn;
    [split; [repeat constructor | reflexivity]|].
  destruct (discovery_build w "cloudidentity" "v1") as [e|[]]; cbn;
    [split; [repeat constructor | reflexivity]|].
  destruct (lookup_execute w _) as [e|resp]; cbn;
    [split; [repeat constructor | reflexivity]|].
  destruct (dict_get resp "name" JNull) as [e|groupName]; cbn;
    [split; [repeat constructor | reflexivity]|].
  destruct (create_membership_returns cfg w groupName
              (membership_body membership_id)) as (logs & -> & Hlogs).
  destruct (logs_expected cfg w membership_id logs Hlogs) as (HF & Hg).
  cbn. split.
  - repeat (constructor; [cbn; auto|]). exact HF.
  - unfold http_gets in *. cbn. exact Hg.
Qed.


(** X11.  A create call that succeeded but whose response has no
    [response] field is logged as an exception (the KeyError), not as
    an added member, and the function returns as usual. *)
Theorem created_without_response_field (cfg : Config) (w : World)
    (groupName membership : json) (fields : list (string * json)) :
  create_execute w groupName membership = inr (JObj fields) ->
  assoc "response" fields = None ->
  create_membership cfg w groupName membership
  = ([Ev_create groupName membership;
      Ev_log (Log_exception (KeyError "response"))], inr tt).
Proof.
  intros Hc Hr. unfold create_membership. cbn. rewrite Hc. cbn.
  rewrite Hr. reflexivity.
Qed.

Lemma created_without_response_field_witness :
  let w := with_create (healthy_world JNull okta_document)
             (inr (JObj [("done", JBool false);
                         ("name", JStr "operations/abc")])) in
  create_membership restricted w (JStr "groups/01abc")
    (membership_body (JStr "a@x.org"))
  = ([Ev_create (JStr "groups/01abc") (membership_body (JStr "a@x.org"));
      Ev_log (Log_exception (KeyError "response"))], inr tt).
Proof.
  intros w.
  apply (created_without_response_field restricted w (JStr "groups/01abc")
           (membership_body (JStr "a@x.org"))
           [("done", JBool false); ("name", JStr "operations/abc")]);
    reflexivity.
Defined.

(** X12.  When the credentials cannot be obtained, or cannot be
    refreshed, the exception leaves the propagator and nothing is
    built, looked up or created. *)
Theorem no_credentials_no_directory_call (cfg : Config) (w : World)
    (membership_id : json) (e : exn) :
  auth_default w cloud_identity_scopes = inl e
  \/ (exists cp, auth_default w cloud_identity_scopes = inr cp
                 /\ credentials_refresh w (fst cp) = inl e) ->
  outcome (add_subgroup cfg w membership_id) = inl e
  /\ directory_calls (trace (add_subgroup cfg w membership_id)) = [].
Proof.
  unfold cloud_identity_scopes, add_subgroup, get_credentials.
  intros [H | (cp & H & Hr)]; cbn; rewrite H; cbn; [auto|].
  rewrite Hr. cbn. auto.
Qed.

Lemma no_credentials_no_directory_call_witness :
  let w := with_auth_default (healthy_world JNull okta_document)
             (inl (OtherException "DefaultCredentialsError")) in
  outcome (add_subgroup restricted w (JStr "a@x.org"))
  = inl (OtherException "DefaultCredentialsError")
  /\ directory_calls (trace (add_subgroup restricted w (JStr "a@x.org"))) = [].
Proof.
  intros w.
  apply (no_credentials_no_directory_call restricted w (JStr "a@x.org")
           (OtherException "DefaultCredentialsError")).
  left. reflexivity.
Defined.

(** X13.  When the lookup answers an object without a [name], the
    group name is [None] and the create call is attempted all the
    same, with parent [None] and the body built from the identifier;
    the propagator returns normally whatever that call does. *)
Theorem lookup_without_name_creates_under_None (cfg : Config) (w : World)
    (membership_id : json) (cp : credentials * json)
    (fields : list (string * json)) :
  auth_default w cloud_identity_scopes = inr cp ->
  credentials_refresh w (fst cp) = inr tt ->
  discovery_build w "cloudidentity" "v1" = inr tt ->
  lookup_execute w ("&groupKey.id=" ++ PARENT_ID cfg)%string
  = inr (JObj fields) ->
  assoc "name" fields = None ->
  create_calls (trace (add_subgroup cfg w membership_id))
  = [(JNull, membership_body membership_id)]
  /\ outcome (add_subgroup cfg w membership_id) = inr tt.
Proof.
  intros Ha Hr Hb Hl Hn.
  assert (Hres : resolve_parent cfg w = inr JNull).
  { unfold resolve_parent. unfold cloud_identity_scopes in Ha.
    rewrite Ha, Hr, Hb, Hl. cbn. rewrite Hn. reflexivity. }
  rewrite add_subgroup_creates, add_subgroup_outcome, Hres. auto.
Qed.

Lemma lookup_without_name_creates_under_None_witness :
  let w := with_lookup (healthy_world JNull okta_document)
             (inr (JObj [("error", JStr "not found")])) in
  create_calls (trace (add_subgroup restricted w (JStr "a@x.org")))
  = [(JNull, membership_body (JStr "a@x.org"))]
  /\ outcome (add_subgroup restricted w (JStr "a@x.org")) = inr tt.
Proof.
  intros w.
  apply (lookup_without_name_creates_under_None restricted w (JStr "a@x.org")
           (Build_credentials (JStr "ya29.token"), JStr "my-project")
           [("error", JStr "not found")]); reflexivity.
Defined.

(** ** More on the handler *)

(** The shape of every run of the handler on a decoded event: the
    fetcher's events, then log messages, then nothing or one run of
    the propagator, then log messages; and one of the five replies. *)
Lemma index_shape cfg w cloud_event requesting_ip membership_id :
  outcome (decode_event w cloud_event) = inr (requesting_ip, membership_id) ->
  exists logs1 body logs2 reply,
    index cfg w cloud_event
    = (trace (gather_okta_ip_ranges w) ++ logs1 ++ body ++ logs2, inr reply)
    /\ forallb is_log logs1 = true
    /\ forallb is_log logs2 = true
    /\ (body = [] \/ body = trace (add_subgroup cfg w membership_id))
    /\ In reply replies.
Proof.
  intros Hd.
  destruct (outcome (gather_okta_ip_ranges w)) as [e|[|r rest]] eqn:Hg.
  - rewrite (index_fetch_raises _ _ _ _ _ _ Hd Hg).
    exists [], [], [Ev_log (Log_processing_error e)], 
           ("Error processing cloud event", 500).
    cbn. intuition.
  - rewrite (index_fetch_empty _ _ _ _ _ Hd Hg).
    exists [], [], [], ("Could not retrieve Okta IP ranges", 500).
    cbn. rewrite app_nil_r. intuition.
  - assert (Hne : r :: rest <> []) by discriminate.
    rewrite (index_fetched _ _ _ _ _ _ Hd Hg Hne).
    destruct (approved cfg w requesting_ip (r :: rest)) eqn:Ha.
    + destruct (enforce_approves cfg w requesting_ip membership_id _ Ha)
        as (logs & Hlogs & ->).
      rewrite propagate_then_return.
      destruct (resolve_parent cfg w) as [e|g]; cbn [trace outcome fst snd].
      * exists logs, (trace (add_subgroup cfg w membership_id)),
               [Ev_log (Log_processing_error e)],
               ("Error processing cloud event", 500).
        cbn. intuition.
      * exists logs, (trace (add_subgroup cfg w membership_id)), [], processed.
        rewrite app_nil_r. cbn. intuition.
    + destruct (enforce_rejects cfg w requesting_ip membership_id _ Ha)
        as (logs & msg & Hlogs & Hrun).
      pose proof Hrun as Hmsg.
      unfold approved in Ha.
      destruct (restrict_to_trusted_ip cfg) eqn:Hr; [|discriminate Ha].
      assert (Hin : In (msg, 200) replies).
      { unfold enforce in Hmsg. rewrite Hr in Hmsg.
        destruct (truthy requesting_ip) eqn:Ht.
        - destruct (is_okta_ip_returns w requesting_ip (r :: rest))
            as (v & Hv & _).
          rewrite Hv in Ha. cbn in Ha.
          rewrite (bind_returns _ _ _ Hv) in Hmsg.
          unfold on_classified in Hmsg. rewrite Ha in Hmsg. cbn in Hmsg.
          injection Hmsg as _ <-. cbn. auto.
        - cbn in Hmsg. injection Hmsg as _ <-. cbn. auto. }
      rewrite Hrun. exists logs, [], [], (msg, 200).
      cbn. rewrite app_nil_r. intuition.
Qed.


Lemma gather_expected cfg w membership_id :
  Forall (expected_event cfg w membership_id)
         (trace (gather_okta_ip_ranges w)).
Proof.
  destruct (gather_trace w) as [-> | [e ->]]; repeat constructor.
Qed.

(** X14.  The handler never raises and its reply is always one of
    five tuples: the three success messages with status 200, and
    "Could not retrieve Okta IP ranges" and "Error processing cloud
    event" with status 500. *)
Theorem index_replies (cfg : Config) (w : World) (cloud_event : CloudEvent) :
  exists reply,
    outcome (index cfg w cloud_event) = inr reply /\ In reply replies.
Proof.
  destruct (outcome (decode_event w cloud_event))
    as [e|[requesting_ip membership_id]] eqn:Hd.
  - rewrite (index_decode_fails _ _ _ _ Hd). eexists. split; [reflexivity|].
    cbn. auto 6.
  - destruct (index_shape cfg w cloud_event _ _ Hd)
      as (l1 & body & l2 & reply & -> & _ & _ & _ & Hin).
    exists reply. auto.
Qed.






(** X16.  What the handler never does: on an event that decodes to
    a membership identifier, every call of the run carries the fixed
    arguments.  The only URL fetched is the Okta range document; the
    only scope asked for is cloud-identity.groups; the only client
    built is cloudidentity v1; the only group looked up is the
    configured parent; a create call has the resolved group as parent
    and the body built from the decoded identifier with role MEMBER;
    the propagator is entered with that identifier only. *)
Theorem index_calls_as_expected (cfg : Config) (w : World)
    (cloud_event : CloudEvent) (requesting_ip membership_id : json) :
  outcome (decode_event w cloud_event) = inr (requesting_ip, membership_id) ->
  Forall (expected_event cfg w membership_id)
         (trace (index cfg w cloud_event)).
Proof.
  intros Hd.
  destruct (index_shape cfg w cloud_event _ _ Hd)
    as (l1 & body & l2 & reply & -> & Hl1 & Hl2 & Hbody & _).
  cbn [trace fst].
  apply Forall_app. split; [apply gather_expected|].
  apply Forall_app. split; [apply (logs_expected _ _ _ _ Hl1)|].
  apply Forall_app. split; [|apply (logs_expected _ _ _ _ Hl2)].
  destruct Hbody as [-> | ->]; [constructor|].
  apply add_subgroup_expected.
Qed.

Lemma index_calls_as_expected_witness :
  let w := healthy_world (audit_entry (Some (JStr "146.112.162.1")) "a@x.org")
             okta_document in
  Forall (expected_event restricted w (JStr "a@x.org"))
         (trace (index restricted w sample_event)).
Proof.
  intros w.
  apply (index_calls_as_expected restricted w sample_event
           (JStr "146.112.162.1") (JStr "a@x.org")).
  reflexivity.
Defined.

(** X17.  A decode failure costs no call: the handler logs the
    exception and answers ("Error processing cloud event", 500)
    without fetching the ranges and without entering the propagator,
    whatever the configuration. *)
Theorem decode_failure_makes_no_call (cfg : Config) (w : World)
    (cloud_event : CloudEvent) (e : exn) :
  outcome (decode_event w cloud_event) = inl e ->
  index cfg w cloud_event
  = ([Ev_log (Log_processing_error e)],
     inr ("Error processing cloud event", 500))
  /\ http_gets (trace (index cfg w cloud_event)) = []
  /\ propagation_events (trace (index cfg w cloud_event)) = [].
Proof.
  intros Hd. rewrite (index_decode_fails _ _ _ _ Hd). auto.
Qed.

Lemma decode_failure_makes_no_call_witness :
  let w := healthy_world
             (JObj [("protoPayload",
                     JObj [("requestMetadata",
                            JObj [("callerIp", JStr "146.112.162.1")]);
                           ("metadata", JObj [("event", JArr [])])])])
             okta_document in
  index restricted w sample_event
  = ([Ev_log (Log_processing_error IndexError)],
     inr ("Error processing cloud event", 500)).
Proof.
  intros w.
  apply (decode_failure_makes_no_call restricted w sample_event IndexError).
  reflexivity.
Defined.

(** X18.  The caller address path is required even when it is not
    used: an entry whose [protoPayload] has no [requestMetadata] is a
    decode failure (KeyError), answered with status 500 and without
    any call, whatever the configuration, so also when the
    restriction is off. *)
Theorem requestMetadata_is_required (cfg : Config) (w : World)
    (cloud_event : CloudEvent) (msg payload message : json)
    (protoPayload : list (string * json)) :
  getitem_str (data cloud_event) "message" = inr msg ->
  getitem_str msg "data" = inr payload ->
  decode_message w payload = inr message ->
  getitem_str message "protoPayload" = inr (JObj protoPayload) ->
  assoc "requestMetadata" protoPayload = None ->
  index cfg w cloud_event
  = ([Ev_log (Log_processing_error (KeyError "requestMetadata"))],
     inr ("Error processing cloud event", 500)).
Proof.
  intros H1 H2 H3 H4 H5. apply index_decode_fails.
  unfold decode_event. rewrite H1. cbn. rewrite H2. cbn. rewrite H3. cbn.
  rewrite H4. cbn. rewrite H5. reflexivity.
Qed.

Lemma requestMetadata_is_required_witness :
  let message :=
    JObj [("protoPayload",
           JObj [("metadata",
                  JObj [("event",
                         JArr [JObj [("parameter",
                                JArr [JObj [("value", JStr "a@x.org")]])]])])])] in
  let w := healthy_world message okta_document in
  index unrestricted w sample_event
  = ([Ev_log (Log_processing_error (KeyError "requestMetadata"))],
     inr ("Error processing cloud event", 500)).
Proof.
  intros message w.
  apply (requestMetadata_is_required unrestricted w sample_event
           (JObj [("data", JStr "eyJwcm90b1BheWxvYWQiOiAuLi59")])
           (JStr "eyJwcm90b1BheWxvYWQiOiAuLi59") message
           [("metadata",
             JObj [("event",
                    JArr [JObj [("parameter",
                           JArr [JObj [("value", JStr "a@x.org")]])]])])]);
    reflexivity.
Defined.

(** ** The configuration *)

(** X19.  The restriction is on exactly when the environment sets
    OKTA_GROUPS_ONLY to the string "True": unset, or set to anything
    else ("true", "1", ...), it is off. *)
Theorem restriction_needs_exactly_True (env : environ) :
  restrict_to_trusted_ip (load_config env) = true
  <-> env "OKTA_GROUPS_ONLY" = Some "True".
Proof.
  unfold restrict_to_trusted_ip, load_config, environ_get. cbn.
  destruct (env "OKTA_GROUPS_ONLY") as [v|].
  - rewrite String.eqb_eq. split; [intros ->; reflexivity|].
    intros H. injection H as ->. reflexivity.
  - split; intros H; discriminate H.
Qed.

(** X20.  An unset PARENT_GROUP does not stop the function: with
    working credentials and client, the propagator looks up the group
    whose id is the placeholder sentence of line 22. *)
Theorem unset_parent_is_looked_up (env : environ) (w : World)
    (membership_id : json) (cp : credentials * json) :
  env "PARENT_GROUP" = None ->
  auth_default w cloud_identity_scopes = inr cp ->
  credentials_refresh w (fst cp) = inr tt ->
  discovery_build w "cloudidentity" "v1" = inr tt ->
  In (Ev_lookup
        "&groupKey.id=Parent group not set in Cloud Run Function environment variable")
     (trace (add_subgroup (load_config env) w membership_id)).
Proof.
  intros He Ha Hr Hb.
  unfold add_subgroup, get_credentials, load_config, environ_get.
  unfold cloud_identity_scopes in Ha. cbn. rewrite He, Ha. cbn.
  rewrite Hr. cbn. rewrite Hb. cbn.
  destruct (lookup_execute w _) as [e|resp]; cbn; [auto 6|].
  destruct (dict_get resp "name" JNull) as [e|g]; cbn; [auto 6|].
  destruct (create_membership _ w g (membership_body membership_id)).
  cbn. auto 6.
Qed.

Lemma unset_parent_is_looked_up_witness :
  let env : environ := fun key =>
    if String.eqb key "OKTA_GROUPS_ONLY" then Some "True" else None in
  In (Ev_lookup
        "&groupKey.id=Parent group not set in Cloud Run Function environment variable")
     (trace (add_subgroup (load_config env)
               (healthy_world JNull okta_document) (JStr "a@x.org"))).
Proof.
  intros env.
  apply (unset_parent_is_looked_up env (healthy_world JNull okta_document)
           (JStr "a@x.org")
           (Build_credentials (JStr "ya29.token"), JStr "my-project"));
    reflexivity.
Defined.
